(** * python-decouple: a shallow embedding of [decouple/__init__.py]

    The development follows the module top to bottom: the resolver
    [Config], the three repositories ([RepositoryEmpty], [RepositoryIni],
    [RepositoryEnv]), the lazy [AutoConfig] with its upward file search,
    and the [Csv] cast.  The Python runtime the module leans on ([str]
    methods, [os.path], [shlex], [distutils.util.strtobool],
    [ConfigParser]) is modelled next to the code that calls it.

    Conventions.
    - A Python [str] is a Rocq [string]; a character is a code point
      below 256 (Latin-1), so [ascii] carries it exactly.
    - [os.environ] and the [data] dict of [RepositoryEnv] are [gmap]s.
    - A call that can raise returns a [result]: [Ok v] or [Raise e]. *)

From Stdlib Require Import ZArith Ascii String DecimalString.
From stdpp Require Import base option list gmap strings.

Local Open Scope Z_scope.

(** ** Exceptions and results *)

Inductive exn : Type :=
  | UndefinedValueError (msg : string)
  | ValueError (msg : string)
  | KeyError (key : string)
  | NoSectionError (section : string)
  | NoOptionError (option section : string)
  | RecursionError
  | OSError (errno : Z) (filename : string).

Inductive result (A : Type) : Type :=
  | Ok (a : A)
  | Raise (e : exn).
Arguments Ok {A} a.
Arguments Raise {A} e.

#[global] Instance result_ret : MRet result := fun _ a => Ok a.
#[global] Instance result_bind : MBind result := fun _ _ f m =>
  match m with
  | Ok a => f a
  | Raise e => Raise e
  end.
#[global] Instance result_fmap : FMap result := fun _ _ f m =>
  match m with
  | Ok a => Ok (f a)
  | Raise e => Raise e
  end.

(** An iterator, as far as its consumer can tell: each [next] raises
    [StopIteration], yields a value, or raises an exception, after
    which the iterator is finished.  The consumer decides how far it
    looks. *)
Inductive generator (A : Type) : Type :=
  | gen_stop
  | gen_yield (a : A) (rest : generator A)
  | gen_raise (e : exn).
Arguments gen_stop {A}.
Arguments gen_yield {A} a rest.
Arguments gen_raise {A} e.

(** [list(g)] *)
Fixpoint py_list {A} (g : generator A) : result (list A) :=
  match g with
  | gen_stop => Ok []
  | gen_yield a rest =>
      match py_list rest with
      | Ok l => Ok (a :: l)
      | Raise e => Raise e
      end
  | gen_raise e => Raise e
  end.

(** ** Python strings *)

Module Str.

(** The double quote character, code point 34. *)
Definition dquote : ascii := "034"%char.
(** The single quote character, code point 39. *)
Definition squote : ascii := "'"%char.

Definition code (c : ascii) : N := N_of_ascii c.

(** [len(s)] *)
Definition len (s : string) : Z := Z.of_nat (String.length s).

(** [c in s] for a one-character [c]. *)
Fixpoint contains (c : ascii) (s : string) : bool :=
  match s with
  | EmptyString => false
  | String d r => if decide (c = d) then true else contains c r
  end.

(** [c.isspace()] on code points below 256: TAB..CR, FS..US, SPACE,
    NEL and NBSP. *)
Definition isspace (c : ascii) : bool :=
  let n := code c in
  ((9 <=? n) && (n <=? 13) || (28 <=? n) && (n <=? 32)
   || (n =? 133) || (n =? 160))%N.

(** [s.lstrip(..)], [s.rstrip(..)], [s.strip(..)] with the set of
    characters to remove given as a predicate. *)
Fixpoint lstrip_by (p : ascii -> bool) (s : string) : string :=
  match s with
  | EmptyString => EmptyString
  | String c r => if p c then lstrip_by p r else s
  end.

Fixpoint rstrip_by (p : ascii -> bool) (s : string) : string :=
  match s with
  | EmptyString => EmptyString
  | String c r =>
      match rstrip_by p r with
      | EmptyString => if p c then EmptyString else String c EmptyString
      | r' => String c r'
      end
  end.

Definition strip_by (p : ascii -> bool) (s : string) : string :=
  rstrip_by p (lstrip_by p s).

(** [s.strip()] *)
Definition strip (s : string) : string := strip_by isspace s.
(** [s.strip(chars)] *)
Definition strip_chars (chars s : string) : string :=
  strip_by (fun c => contains c chars) s.
(** [s.rstrip(chars)] *)
Definition rstrip_chars (chars s : string) : string :=
  rstrip_by (fun c => contains c chars) s.

(** [s.startswith(p)] *)
Definition startswith (p s : string) : bool := String.prefix p s.

(** [s[i]] with Python's negative indices; [None] stands for
    [IndexError]. *)
Definition at_ (s : string) (i : Z) : option ascii :=
  let n := len s in
  let j := if i <? 0 then i + n else i in
  if (0 <=? j) && (j <? n) then String.get (Z.to_nat j) s else None.

(** [s.partition(sep)] restricted to the case where [sep] occurs. *)
Fixpoint split_first (sep : ascii) (s : string) : option (string * string) :=
  match s with
  | EmptyString => None
  | String c r =>
      if decide (c = sep) then Some (EmptyString, r)
      else match split_first sep r with
           | Some (a, b) => Some (String c a, b)
           | None => None
           end
  end.

(** [s.split(sep, 1)] for a one-character [sep]. *)
Definition split1 (sep : ascii) (s : string) : list string :=
  match split_first sep s with
  | Some (a, b) => [a; b]
  | None => [s]
  end.

(** [s.split(sep)] for a one-character [sep]. *)
Fixpoint split (sep : ascii) (s : string) : list string :=
  match s with
  | EmptyString => [EmptyString]
  | String c r =>
      if decide (c = sep) then EmptyString :: split sep r
      else match split sep r with
           | w :: ws => String c w :: ws
           | [] => [String c EmptyString]
           end
  end.

(** [sep.join(parts)] *)
Fixpoint join (sep : string) (parts : list string) : string :=
  match parts with
  | [] => EmptyString
  | [w] => w
  | w :: ws => w +:+ sep +:+ join sep ws
  end.

(** [c.lower()] on code points below 256: A..Z and the Latin-1
    capitals (all of 192..222 but the multiplication sign 215). *)
Definition lower_char (c : ascii) : ascii :=
  let n := code c in
  if ((65 <=? n) && (n <=? 90)
      || (192 <=? n) && (n <=? 222) && negb (n =? 215))%N
  then ascii_of_N (n + 32) else c.

(** [s.lower()] *)
Fixpoint lower (s : string) : string :=
  match s with
  | EmptyString => EmptyString
  | String c r => String (lower_char c) (lower r)
  end.

(** [str(n)] for an [int]. *)
Definition of_int (n : Z) : string := NilZero.string_of_int (Z.to_int n).

(** [bool(s)] *)
Definition truthy (s : string) : bool :=
  match s with EmptyString => false | _ => true end.

(** The hexadecimal digit of [n < 16], in lower case. *)
Definition hex_digit (n : N) : ascii :=
  match String.get (N.to_nat n) "0123456789abcdef" with
  | Some c => c
  | None => "0"%char
  end.

(** [c.isprintable()] on code points below 256: not the C0 and C1
    controls, DEL, the no-break space and the soft hyphen. *)
Definition isprintable (c : ascii) : bool :=
  let n := code c in
  ((32 <=? n) && (n <? 127) || (161 <=? n) && negb (n =? 173))%N.

(** How [repr] writes one character between the quotes [quote]. *)
Definition repr_char (quote c : ascii) : string :=
  if bool_decide (c = quote) || bool_decide (c = "\"%char) then
    String "\" (String c EmptyString)
  else if bool_decide (c = "009"%char) then "\t"
  else if bool_decide (c = "010"%char) then "\n"
  else if bool_decide (c = "013"%char) then "\r"
  else if isprintable c then String c EmptyString
  else
    String "\" (String "x" (String (hex_digit (code c / 16))
      (String (hex_digit (code c mod 16)) EmptyString))).

Fixpoint repr_body (quote : ascii) (s : string) : string :=
  match s with
  | EmptyString => EmptyString
  | String c r => repr_char quote c +:+ repr_body quote r
  end.

(** [repr(s)]: single quotes, unless [s] has a single quote and no
    double quote. *)
Definition repr (s : string) : string :=
  let quote :=
    if contains squote s && negb (contains dquote s) then dquote
    else squote in
  String quote (repr_body quote s +:+ String quote EmptyString).

End Str.

(** [string.whitespace] *)
Definition string_whitespace : string :=
  String " " (String "009" (String "010" (String "013"
    (String "011" (String "012" EmptyString))))).

(** ** Values, defaults and casts *)

(** The values that flow through [Config.get]: what [os.environ] and the
    repositories hold ([str]), what [RepositoryEmpty] answers ([None]),
    and the defaults the test-suite passes ([None], [int], [bool],
    [str]). *)
Inductive pyval : Type :=
  | PyNone
  | PyBool (b : bool)
  | PyInt (n : Z)
  | PyStr (s : string).

(** [str(value)] *)
Definition py_str (v : pyval) : string :=
  match v with
  | PyNone => "None"
  | PyBool true => "True"
  | PyBool false => "False"
  | PyInt n => Str.of_int n
  | PyStr s => s
  end.

(** The [default] argument: the [undefined] instance of class
    [Undefined], or a value of the caller's. *)
Inductive default_arg : Type :=
  | undefined
  | Default (v : pyval).

(** The [cast] argument.  [Config.get] tells three cases apart: its own
    default [_cast_do_nothing], the builtin [bool] (tested with [is]),
    and any other callable, which may raise. *)
Inductive cast_arg : Type :=
  | _cast_do_nothing
  | cast_bool
  | cast_callable (f : pyval -> result pyval).

(** [distutils.util.strtobool] *)
Definition strtobool (val : string) : result Z :=
  let val := Str.lower val in
  if bool_decide (val ∈ ["y"; "yes"; "t"; "true"; "on"; "1"]) then Ok 1
  else if bool_decide (val ∈ ["n"; "no"; "f"; "false"; "off"; "0"]) then Ok 0
  else Raise (ValueError ("invalid truth value " +:+ Str.repr val)).

(** ** Dictionaries *)

(** [key in d] *)
Definition dict_contains {V} (d : gmap string V) (key : string) : bool :=
  bool_decide (is_Some (d !! key)).

(** [d[key]] *)
Definition dict_getitem {V} (d : gmap string V) (key : string) : result V :=
  match d !! key with
  | Some v => Ok v
  | None => Raise (KeyError key)
  end.

(** ** [ConfigParser], as far as [RepositoryIni] uses it *)

(** A loaded parser: its sections, the DEFAULT section, and the
    interpolation applied by [get] ([BasicInterpolation.before_get] in
    the standard library, taken here as a component of the parser). *)
Record ConfigParser : Type := {
  _sections : gmap string (gmap string string);
  _defaults : gmap string string;
  _interpolation :
    string -> string -> string -> gmap string string -> result string
}.

Definition default_section : string := "DEFAULT".

(** [ConfigParser.optionxform] *)
Definition optionxform (optionstr : string) : string := Str.lower optionstr.

(** [ConfigParser.has_option] *)
Definition has_option (self : ConfigParser) (section option : string) : bool :=
  if negb (Str.truthy section) || bool_decide (section = default_section) then
    dict_contains (_defaults self) (optionxform option)
  else
    match _sections self !! section with
    | None => false
    | Some sectiondict =>
        let option := optionxform option in
        dict_contains sectiondict option || dict_contains (_defaults self) option
    end.

(** [ConfigParser._unify_values] with [vars=None]: the section's own
    options shadow those of DEFAULT. *)
Definition _unify_values (self : ConfigParser) (section : string)
  : result (gmap string string) :=
  match _sections self !! section with
  | Some sectiondict => Ok (sectiondict ∪ _defaults self)
  | None =>
      if bool_decide (section ≠ default_section)
      then Raise (NoSectionError section)
      else Ok (∅ ∪ _defaults self)
  end.

(** [ConfigParser.get] with [raw=False], [vars=None] and no fallback. *)
Definition ConfigParser_get (self : ConfigParser) (section option : string)
  : result string :=
  d ← _unify_values self section;
  let option := optionxform option in
  match d !! option with
  | None => Raise (NoOptionError option section)
  | Some value => _interpolation self section option value d
  end.

(** ** The repositories *)

(** [RepositoryIni.SECTION] *)
Definition SECTION : string := "settings".

(** An instance of one of the three repository classes; [__contains__]
    and [__getitem__] dispatch on the class. *)
Inductive Repository : Type :=
  | RepositoryEmpty
  | RepositoryIni (parser : ConfigParser)
  | RepositoryEnv (data : gmap string string).

(** The body of the [for line in file_] loop of [RepositoryEnv.__init__];
    a [continue] hands back the dict unchanged. *)
Definition RepositoryEnv_line (data : gmap string string) (line : string)
  : result (gmap string string) :=
  let line := Str.strip line in
  if negb (Str.truthy line) || Str.startswith "#" line
     || negb (Str.contains "=" line)
  then Ok data
  else
    match Str.split1 "=" line with
    | [k; v] =>
        let k := Str.strip k in
        let v := Str.strip v in
        let v :=
          if (2 <=? Str.len v)
             && ((bool_decide (Str.at_ v 0 = Some Str.squote)
                  && bool_decide (Str.at_ v (-1) = Some Str.squote))
                 || (bool_decide (Str.at_ v 0 = Some Str.dquote)
                     && bool_decide (Str.at_ v (-1) = Some Str.dquote)))
          then Str.strip_chars (String Str.squote (String Str.dquote "")) v
          else v in
        Ok (<[k := v]> data)
    | _ => Raise (ValueError "not enough values to unpack (expected 2, got 1)")
    end.

(** The whole loop, over the lines the file object yields. *)
Fixpoint RepositoryEnv_lines (data : gmap string string) (lines : list string)
  : result (gmap string string) :=
  match lines with
  | [] => Ok data
  | line :: rest =>
      data ← RepositoryEnv_line data line;
      RepositoryEnv_lines data rest
  end.

(** [Repository.__contains__] *)
Definition Repository_contains (environ : gmap string string) (self : Repository)
    (key : string) : bool :=
  match self with
  | RepositoryEmpty => false
  | RepositoryIni parser =>
      dict_contains environ key || has_option parser SECTION key
  | RepositoryEnv data =>
      dict_contains environ key || dict_contains data key
  end.

(** [Repository.__getitem__] *)
Definition Repository_getitem (self : Repository) (key : string)
  : result pyval :=
  match self with
  | RepositoryEmpty => Ok PyNone
  | RepositoryIni parser => PyStr <$> ConfigParser_get parser SECTION key
  | RepositoryEnv data => PyStr <$> dict_getitem data key
  end.

(** ** [Config] *)

Record Config : Type := { repository : Repository }.

(** [Config._cast_boolean] *)
Definition _cast_boolean (value : pyval) : result bool :=
  let value := py_str value in
  if bool_decide (value = "") then Ok (Str.truthy value)
  else n ← strtobool value; Ok (negb (n =? 0)).

(** Calling the [cast] that [Config.get] ends up with. *)
Definition call_cast (cast : cast_arg) (value : pyval) : result pyval :=
  match cast with
  | _cast_do_nothing => Ok value
  | cast_bool => PyBool <$> _cast_boolean value
  | cast_callable f => f value
  end.

(** [Config.get] *)
Definition Config_get (environ : gmap string string) (self : Config) (option : string)
    (default : default_arg) (cast : cast_arg) : result pyval :=
  value ←
    (if dict_contains environ option then
       PyStr <$> dict_getitem environ option
     else if Repository_contains environ (repository self) option then
       Repository_getitem (repository self) option
     else
       match default with
       | undefined =>
           Raise (UndefinedValueError
                    (option +:+ " not found. Declare it as envvar or define a default value."))
       | Default v => Ok v
       end);
  call_cast cast value.

(** [Config.__call__] *)
Definition Config_call (environ : gmap string string) (self : Config) (option : string)
    (default : default_arg) (cast : cast_arg) : result pyval :=
  Config_get environ self option default cast.

(** ** [os.path] (posixpath) *)

Module Path.

Definition sep : ascii := "/"%char.

(** [s.rfind(c)] for a one-character [c]; [-1] when absent. *)
Fixpoint rfind (c : ascii) (s : string) : Z :=
  match s with
  | EmptyString => -1
  | String d r =>
      let i := rfind c r in
      if 0 <=? i then i + 1 else if decide (d = c) then 0 else -1
  end.

(** [s[:i]] and [s[i:]] for [0 <= i]. *)
Definition slice_to (s : string) (i : Z) : string :=
  String.substring 0 (Z.to_nat i) s.
Definition slice_from (s : string) (i : Z) : string :=
  String.substring (Z.to_nat i) (String.length s - Z.to_nat i) s.

(** [s.endswith(c)] for a one-character [c]. *)
Definition endswith (c : ascii) (s : string) : bool :=
  bool_decide (Str.at_ s (-1) = Some c).

(** [c * n] *)
Fixpoint repeat_char (c : ascii) (n : nat) : string :=
  match n with
  | O => EmptyString
  | S n => String c (repeat_char c n)
  end.

(** [os.path.isabs] *)
Definition isabs (s : string) : bool := Str.startswith (String sep "") s.

(** [os.path.join(a, b)] *)
Definition join (a b : string) : string :=
  if Str.startswith (String sep "") b then b
  else if negb (Str.truthy a) || endswith sep a then a +:+ b
  else a +:+ String sep b.

(** [os.path.basename] *)
Definition basename (p : string) : string :=
  let i := rfind sep p + 1 in
  slice_from p i.

(** [os.path.dirname] *)
Definition dirname (p : string) : string :=
  let i := rfind sep p + 1 in
  let head := slice_to p i in
  if Str.truthy head
     && negb (bool_decide (head = repeat_char sep (String.length head)))
  then Str.rstrip_chars (String sep "") head
  else head.

(** The loop of [normpath] over the components. *)
Fixpoint normpath_comps (initial_slashes : nat) (new_comps : list string)
    (comps : list string) : list string :=
  match comps with
  | [] => new_comps
  | comp :: rest =>
      if bool_decide (comp ∈ [""; "."]) then
        normpath_comps initial_slashes new_comps rest
      else if bool_decide (comp ≠ "..")
              || (bool_decide (initial_slashes = O)
                  && bool_decide (new_comps = []))
              || (bool_decide (new_comps ≠ [])
                  && bool_decide (last new_comps = Some ".."))
      then normpath_comps initial_slashes (new_comps ++ [comp]) rest
      else if bool_decide (new_comps ≠ []) then
        normpath_comps initial_slashes (removelast new_comps) rest
      else normpath_comps initial_slashes new_comps rest
  end.

(** [os.path.normpath] *)
Definition normpath (path : string) : string :=
  if bool_decide (path = "") then "."
  else
    let initial_slashes :=
      if Str.startswith "/" path then
        if Str.startswith "//" path && negb (Str.startswith "///" path)
        then 2%nat else 1%nat
      else O in
    let comps := normpath_comps initial_slashes [] (Str.split sep path) in
    let path := Str.join "/" comps in
    let path := repeat_char sep initial_slashes +:+ path in
    if Str.truthy path then path else ".".

End Path.

(** ** The host: file system, parser library, interpreter limits *)

Record Host : Type := {
  (** [os.path.isfile]; it answers [False] where [os.stat] fails. *)
  isfile : string -> bool;
  (** [os.getcwd()], which raises when the working directory is gone or
      unreadable. *)
  getcwd : result string;
  (** [open(source, encoding=..)] followed by the iteration over the
      lines of the file. *)
  open_lines : string -> result (list string);
  (** [ConfigParser().readfp(file_)] on those lines. *)
  readfp : list string -> result ConfigParser;
  (** How many nested calls of [_find_file] the interpreter allows
      before it raises [RecursionError]. *)
  recursion_limit : nat
}.

(** [os.path.abspath] *)
Definition abspath (host : Host) (path : string) : result string :=
  path ← (if negb (Path.isabs path) then
             cwd ← getcwd host; Ok (Path.join cwd path)
           else Ok path);
  Ok (Path.normpath path).

(** ** Constructors of the repositories *)

(** The classes [AutoConfig.SUPPORTED] maps to, and the fallback. *)
Inductive RepositoryClass : Type :=
  | RepositoryEmpty_cls
  | RepositoryIni_cls
  | RepositoryEnv_cls.

(** [RepositoryEmpty.__init__] *)
Definition RepositoryEmpty_init (source : string) : result Repository :=
  Ok RepositoryEmpty.

(** [RepositoryIni.__init__] *)
Definition RepositoryIni_init (host : Host) (source : string)
  : result Repository :=
  file_ ← open_lines host source;
  parser ← readfp host file_;
  Ok (RepositoryIni parser).

(** [RepositoryEnv.__init__] *)
Definition RepositoryEnv_init (host : Host) (source : string)
  : result Repository :=
  file_ ← open_lines host source;
  data ← RepositoryEnv_lines ∅ file_;
  Ok (RepositoryEnv data).

(** [Repository(filename, encoding=self.encoding)] *)
Definition Repository_new (host : Host) (cls : RepositoryClass)
    (source : string) : result Repository :=
  match cls with
  | RepositoryEmpty_cls => RepositoryEmpty_init source
  | RepositoryIni_cls => RepositoryIni_init host source
  | RepositoryEnv_cls => RepositoryEnv_init host source
  end.

(** ** [AutoConfig] *)

(** [AutoConfig.SUPPORTED], an [OrderedDict]. *)
Definition SUPPORTED : list (string * RepositoryClass) :=
  [("settings.ini", RepositoryIni_cls); (".env", RepositoryEnv_cls)].

(** [SUPPORTED.get(key, default)] *)
Fixpoint SUPPORTED_get (d : list (string * RepositoryClass)) (key : string)
    (default : RepositoryClass) : RepositoryClass :=
  match d with
  | [] => default
  | (k, cls) :: rest =>
      if decide (k = key) then cls else SUPPORTED_get rest key default
  end.

Record AutoConfig : Type := {
  search_path : option string;
  config : option Config
}.

(** [AutoConfig.__init__] *)
Definition AutoConfig_init (search_path : option string) : AutoConfig :=
  {| search_path := search_path; config := None |}.

(** The [for configfile in self.SUPPORTED] loop of [_find_file]:
    the first file name that exists, if any. *)
Fixpoint _find_file_here (host : Host) (path : string)
    (supported : list (string * RepositoryClass)) : option string :=
  match supported with
  | [] => None
  | (configfile, _) :: rest =>
      let filename := Path.join path configfile in
      if isfile host filename then Some filename
      else _find_file_here host path rest
  end.

(** [AutoConfig._find_file]; [depth] counts the calls the interpreter
    still allows. *)
Fixpoint _find_file (depth : nat) (host : Host) (path : string)
  : result string :=
  match depth with
  | O => Raise RecursionError
  | S depth =>
      match _find_file_here host path SUPPORTED with
      | Some filename => Ok filename
      | None =>
          let parent := Path.dirname path in
          if Str.truthy parent then
            root ← abspath host (String Path.sep "");
            if bool_decide (parent ≠ root)
            then _find_file depth host parent
            else Ok ""
          else Ok ""
      end
  end.

(** [AutoConfig._load]; every exception modelled here derives from
    [Exception], so the handler catches whatever the search raises. *)
Definition _load (host : Host) (self : AutoConfig) (path : string)
  : result AutoConfig :=
  let filename :=
    match abspath host path ≫= _find_file (recursion_limit host) host with
    | Ok filename => filename
    | Raise _ => ""
    end in
  let Repository :=
    SUPPORTED_get SUPPORTED (Path.basename filename) RepositoryEmpty_cls in
  repository ← Repository_new host Repository filename;
  Ok {| search_path := search_path self;
        config := Some {| repository := repository |} |}.

(** [AutoConfig.__call__]; [caller_path] is what [_caller_path()] reads
    off the caller's frame.  The instance as the call leaves it comes
    with the result. *)
Definition AutoConfig_call (host : Host) (environ : gmap string string)
    (self : AutoConfig) (caller_path : string) (option : string)
    (default : default_arg) (cast : cast_arg)
  : AutoConfig * result pyval :=
  match config self with
  | Some cfg => (self, Config_call environ cfg option default cast)
  | None =>
      let path :=
        match search_path self with
        | Some p => if Str.truthy p then p else caller_path
        | None => caller_path
        end in
      match _load host self path with
      | Raise e => (self, Raise e)
      | Ok self =>
          match config self with
          | Some cfg => (self, Config_call environ cfg option default cast)
          | None => (self, Raise (ValueError "assert self.config"))
          end
      end
  end.

(** ** [shlex], as far as [Csv] drives it *)

Module Shlex.

(** The characters with code points [lo], [lo+1], .., [lo+n-1]. *)
Fixpoint chars_from (lo : N) (n : nat) : string :=
  match n with
  | O => EmptyString
  | S n => String (ascii_of_N lo) (chars_from (N.succ lo) n)
  end.

(** The attributes of a [shlex] instance that [read_token] reads or
    writes; [instream] is what is left of the input, [state = None] is
    Python's [self.state = None]. *)
Record t : Type := {
  instream : string;
  posix : bool;
  commenters : string;
  wordchars : string;
  whitespace : string;
  whitespace_split : bool;
  quotes : string;
  escape : string;
  escapedquotes : string;
  state : option ascii;
  pushback : list string;
  token : string;
  punctuation_chars : string;
  _pushback_chars : list ascii
}.

Definition set_instream (self : t) (v : string) : t :=
  {| instream := v; posix := posix self; commenters := commenters self;
     wordchars := wordchars self; whitespace := whitespace self;
     whitespace_split := whitespace_split self; quotes := quotes self;
     escape := escape self; escapedquotes := escapedquotes self;
     state := state self; pushback := pushback self; token := token self;
     punctuation_chars := punctuation_chars self;
     _pushback_chars := _pushback_chars self |}.

Definition set_state (self : t) (v : option ascii) : t :=
  {| instream := instream self; posix := posix self;
     commenters := commenters self; wordchars := wordchars self;
     whitespace := whitespace self;
     whitespace_split := whitespace_split self; quotes := quotes self;
     escape := escape self; escapedquotes := escapedquotes self;
     state := v; pushback := pushback self; token := token self;
     punctuation_chars := punctuation_chars self;
     _pushback_chars := _pushback_chars self |}.

Definition set_token (self : t) (v : string) : t :=
  {| instream := instream self; posix := posix self;
     commenters := commenters self; wordchars := wordchars self;
     whitespace := whitespace self;
     whitespace_split := whitespace_split self; quotes := quotes self;
     escape := escape self; escapedquotes := escapedquotes self;
     state := state self; pushback := pushback self; token := v;
     punctuation_chars := punctuation_chars self;
     _pushback_chars := _pushback_chars self |}.

Definition set_pushback (self : t) (v : list string) : t :=
  {| instream := instream self; posix := posix self;
     commenters := commenters self; wordchars := wordchars self;
     whitespace := whitespace self;
     whitespace_split := whitespace_split self; quotes := quotes self;
     escape := escape self; escapedquotes := escapedquotes self;
     state := state self; pushback := v; token := token self;
     punctuation_chars := punctuation_chars self;
     _pushback_chars := _pushback_chars self |}.

Definition set_pushback_chars (self : t) (v : list ascii) : t :=
  {| instream := instream self; posix := posix self;
     commenters := commenters self; wordchars := wordchars self;
     whitespace := whitespace self;
     whitespace_split := whitespace_split self; quotes := quotes self;
     escape := escape self; escapedquotes := escapedquotes self;
     state := state self; pushback := pushback self; token := token self;
     punctuation_chars := punctuation_chars self;
     _pushback_chars := v |}.

Definition set_whitespace (self : t) (v : string) : t :=
  {| instream := instream self; posix := posix self;
     commenters := commenters self; wordchars := wordchars self;
     whitespace := v;
     whitespace_split := whitespace_split self; quotes := quotes self;
     escape := escape self; escapedquotes := escapedquotes self;
     state := state self; pushback := pushback self; token := token self;
     punctuation_chars := punctuation_chars self;
     _pushback_chars := _pushback_chars self |}.

Definition set_whitespace_split (self : t) (v : bool) : t :=
  {| instream := instream self; posix := posix self;
     commenters := commenters self; wordchars := wordchars self;
     whitespace := whitespace self;
     whitespace_split := v; quotes := quotes self;
     escape := escape self; escapedquotes := escapedquotes self;
     state := state self; pushback := pushback self; token := token self;
     punctuation_chars := punctuation_chars self;
     _pushback_chars := _pushback_chars self |}.

(** [shlex(instream, posix=posix)], with [punctuation_chars] left at
    its default. *)
Definition init (instream : string) (posix : bool) : t :=
  {| instream := instream;
     posix := posix;
     commenters := "#";
     wordchars :=
       "abcdfeghijklmnopqrstuvwxyzABCDEFGHIJKLMNOPQRSTUVWXYZ0123456789_"
       +:+ (if posix
            then chars_from 223 24 +:+ chars_from 248 8
                 +:+ chars_from 192 23 +:+ chars_from 216 7
            else "");
     whitespace := String " " (String "009" (String "013" (String "010" "")));
     whitespace_split := false;
     quotes := String Str.squote (String Str.dquote "");
     escape := String "\" "";
     escapedquotes := String Str.dquote "";
     state := Some " "%char;
     pushback := [];
     token := "";
     punctuation_chars := "";
     _pushback_chars := [] |}.

(** [self.eof]: [None] in posix mode, the empty string otherwise. *)
Definition eof (self : t) : option string :=
  if posix self then None else Some "".

(** [self.instream.read(1)]; [None] is the empty string of end of
    file. *)
Definition read1 (self : t) : option ascii * t :=
  match instream self with
  | EmptyString => (None, self)
  | String c r => (Some c, set_instream self r)
  end.

(** [self.instream.readline()], the line being dropped. *)
Fixpoint after_newline (s : string) : string :=
  match s with
  | EmptyString => EmptyString
  | String c r => if decide (c = "010"%char) then r else after_newline r
  end.
Definition readline (self : t) : t :=
  set_instream self (after_newline (instream self)).

(** How one round of the [while True] loop of [read_token] ends. *)
Inductive ctl : Type :=
  | Continue (self : t) (quoted : bool) (escapedstate : ascii)
  | Break (self : t) (quoted : bool)
  | Throw (e : exn).

(** [if self.token or (self.posix and quoted): break else: continue] *)
Definition emit_or_continue (self : t) (quoted : bool)
    (escapedstate : ascii) : ctl :=
  if Str.truthy (token self) || (posix self && quoted)
  then Break self quoted
  else Continue self quoted escapedstate.

Definition add (self : t) (c : ascii) : t :=
  set_token self (token self +:+ String c "").

(** One round of the loop. *)
Definition read_token_round (self : t) (quoted : bool)
    (escapedstate : ascii) : ctl :=
  let '(nextchar, self) :=
    match Str.truthy (punctuation_chars self), _pushback_chars self with
    | true, c :: rest => (Some c, set_pushback_chars self rest)
    | _, _ => read1 self
    end in
  match state self with
  | None => Break (set_token self "") quoted
  | Some st =>
    if decide (st = " "%char) then
      match nextchar with
      | None => Break (set_state self None) quoted
      | Some ch =>
        if Str.contains ch (whitespace self) then
          emit_or_continue self quoted escapedstate
        else if Str.contains ch (commenters self) then
          Continue (readline self) quoted escapedstate
        else if posix self && Str.contains ch (escape self) then
          Continue (set_state self (Some ch)) quoted "a"%char
        else if Str.contains ch (wordchars self) then
          Continue (set_state (set_token self (String ch "")) (Some "a"%char))
                   quoted escapedstate
        else if Str.contains ch (punctuation_chars self) then
          Continue (set_state (set_token self (String ch "")) (Some "c"%char))
                   quoted escapedstate
        else if Str.contains ch (quotes self) then
          let self :=
            if negb (posix self) then set_token self (String ch "")
            else self in
          Continue (set_state self (Some ch)) quoted escapedstate
        else if whitespace_split self then
          Continue (set_state (set_token self (String ch "")) (Some "a"%char))
                   quoted escapedstate
        else
          emit_or_continue (set_token self (String ch "")) quoted escapedstate
      end
    else if Str.contains st (quotes self) then
      let quoted := true in
      match nextchar with
      | None => Throw (ValueError "No closing quotation")
      | Some ch =>
        if decide (ch = st) then
          if negb (posix self) then
            Break (set_state (add self ch) (Some " "%char)) quoted
          else Continue (set_state self (Some "a"%char)) quoted escapedstate
        else if posix self && Str.contains ch (escape self)
                && Str.contains st (escapedquotes self) then
          Continue (set_state self (Some ch)) quoted st
        else Continue (add self ch) quoted escapedstate
      end
    else if Str.contains st (escape self) then
      match nextchar with
      | None => Throw (ValueError "No escaped character")
      | Some ch =>
        let self :=
          if Str.contains escapedstate (quotes self)
             && bool_decide (ch ≠ st) && bool_decide (ch ≠ escapedstate)
          then add self st else self in
        Continue (set_state (add self ch) (Some escapedstate))
                 quoted escapedstate
      end
    else if bool_decide (st ∈ ["a"%char; "c"%char]) then
      match nextchar with
      | None => Break (set_state self None) quoted
      | Some ch =>
        if Str.contains ch (whitespace self) then
          emit_or_continue (set_state self (Some " "%char)) quoted
                           escapedstate
        else if Str.contains ch (commenters self) then
          let self := readline self in
          if posix self then
            emit_or_continue (set_state self (Some " "%char)) quoted
                             escapedstate
          else Continue self quoted escapedstate
        else if decide (st = "c"%char) then
          if Str.contains ch (punctuation_chars self) then
            Continue (add self ch) quoted escapedstate
          else
            let self :=
              if negb (Str.contains ch (whitespace self))
              then set_pushback_chars self (ch :: _pushback_chars self)
              else self in
            Break (set_state self (Some " "%char)) quoted
        else if posix self && Str.contains ch (quotes self) then
          Continue (set_state self (Some ch)) quoted escapedstate
        else if posix self && Str.contains ch (escape self) then
          Continue (set_state self (Some ch)) quoted "a"%char
        else if Str.contains ch (wordchars self)
                || Str.contains ch (quotes self)
                || (whitespace_split self
                    && negb (Str.contains ch (punctuation_chars self))) then
          Continue (add self ch) quoted escapedstate
        else
          let self :=
            if Str.truthy (punctuation_chars self)
            then set_pushback_chars self (ch :: _pushback_chars self)
            else set_pushback self (String ch "" :: pushback self) in
          emit_or_continue (set_state self (Some " "%char)) quoted
                           escapedstate
      end
    else Continue self quoted escapedstate
  end.

(** The loop, for at most [fuel] rounds; [None] when they run out. *)
Fixpoint read_token_loop (fuel : nat) (self : t) (quoted : bool)
    (escapedstate : ascii) : option (result (t * bool)) :=
  match fuel with
  | O => None
  | S fuel =>
      match read_token_round self quoted escapedstate with
      | Continue self quoted escapedstate =>
          read_token_loop fuel self quoted escapedstate
      | Break self quoted => Some (Ok (self, quoted))
      | Throw e => Some (Raise e)
      end
  end.

(** [shlex.read_token] *)
Definition read_token (fuel : nat) (self : t)
  : option (result (option string * t)) :=
  match read_token_loop fuel self false " "%char with
  | None => None
  | Some (Raise e) => Some (Raise e)
  | Some (Ok (self, quoted)) =>
      let result := token self in
      let self := set_token self "" in
      let result :=
        if posix self && negb quoted && bool_decide (result = "")
        then None else Some result in
      Some (Ok (result, self))
  end.

(** [shlex.get_token]; no [source] is set and the file stack is
    empty, so a raw token goes back as it is. *)
Definition get_token (fuel : nat) (self : t)
  : option (result (option string * t)) :=
  match pushback self with
  | tok :: rest => Some (Ok (Some tok, set_pushback self rest))
  | [] => read_token fuel self
  end.

(** The iterator [splitter]: [__next__] is [get_token], and a token
    equal to [eof] is [StopIteration].  At most [n] tokens are read,
    each with [fuel] rounds; [None] when that is not enough. *)
Fixpoint tokens (n fuel : nat) (self : t) : option (generator string) :=
  match n with
  | O => None
  | S n =>
      match get_token fuel self with
      | None => None
      | Some (Raise e) => Some (gen_raise e)
      | Some (Ok (tok, self)) =>
          if bool_decide (tok = eof self) then Some gen_stop
          else
            match tokens n fuel self with
            | Some rest =>
                Some (from_option (fun s => gen_yield s rest) rest tok)
            | None => None
            end
      end
  end.

End Shlex.

(** ** [Csv] *)

(** A [Csv] instance.  [post_process] receives the generator of cast
    tokens and reads as much of it as it likes. *)
Record Csv (A B : Type) : Type := {
  cast : string -> result A;
  delimiter : string;
  strip : string;
  post_process : generator A -> result B
}.
Arguments cast {A B} _.
Arguments delimiter {A B} _.
Arguments strip {A B} _.
Arguments post_process {A B} _.

(** [Csv()], every parameter at its default: [cast=str],
    [delimiter=','], [strip=string.whitespace], [post_process=list]. *)
Definition Csv_default : Csv string (list string) :=
  {| cast := fun s => Ok s;
     delimiter := ",";
     strip := string_whitespace;
     post_process := py_list |}.

(** The generator expression [transform(s) for s in splitter]: an
    exception of the tokenizer or of the cast ends it. *)
Fixpoint Csv_generator {A B} (self : Csv A B) (splitter : generator string)
  : generator A :=
  match splitter with
  | gen_stop => gen_stop
  | gen_yield s rest =>
      match cast self (Str.strip_chars (strip self) s) with
      | Ok x => gen_yield x (Csv_generator self rest)
      | Raise e => gen_raise e
      end
  | gen_raise e => gen_raise e
  end.

(** [Csv.__call__]; the two loops of the tokenizer each get one round
    more than [value] has characters, and [None] reports that they did
    not finish within that. *)
Definition Csv_call {A B} (self : Csv A B) (value : string)
  : option (result B) :=
  let splitter := Shlex.init value true in
  let splitter := Shlex.set_whitespace splitter (delimiter self) in
  let splitter := Shlex.set_whitespace_split splitter true in
  let fuel := S (String.length value) in
  match Shlex.tokens fuel fuel splitter with
  | None => None
  | Some tokens => Some (post_process self (Csv_generator self tokens))
  end.

(** * Vocabulary of the statements *)

(** The two token tables, as the specification lists them. *)
Definition true_tokens : list string := ["y"; "yes"; "t"; "true"; "on"; "1"].
Definition false_tokens : list string := ["n"; "no"; "f"; "false"; "off"; "0"].

(** What [cast=bool] makes of a value [raw] that the lookup resolved
    to, with [r] the outcome of the call: the value is turned into a
    string and read off the token tables without regard to case.  A
    [str] is its own string; [str] of an [int] is its decimal
    numeral, so only 1 and 0 meet a token; [str(True)] and [str(False)]
    are the tokens [true] and [false]; [str(None)] is no token. *)
Definition boolean_cast_result (raw : pyval) (r : result pyval) : Prop :=
  match raw with
  | PyStr s =>
      (s = "" → r = Ok (PyBool false))
      ∧ (Str.lower s ∈ false_tokens → r = Ok (PyBool false))
      ∧ (Str.lower s ∈ true_tokens → r = Ok (PyBool true))
      ∧ (s ≠ "" → Str.lower s ∉ false_tokens → Str.lower s ∉ true_tokens →
         ∃ msg, r = Raise (ValueError msg))
  | PyInt n =>
      (n = 1 → r = Ok (PyBool true))
      ∧ (n = 0 → r = Ok (PyBool false))
      ∧ (n ≠ 0 → n ≠ 1 → ∃ msg, r = Raise (ValueError msg))
  | PyBool b => r = Ok (PyBool b)
  | PyNone => ∃ msg, r = Raise (ValueError msg)
  end.

(** A path component: not empty, and free of the separator. *)
Definition component (c : string) : Prop :=
  c ≠ "" ∧ Str.contains Path.sep c = false.

(** [/c1/c2/../cn], the empty string for no component. *)
Fixpoint under (cs : list string) : string :=
  match cs with
  | [] => ""
  | c :: rest => String Path.sep c +:+ under rest
  end.

(** The absolute path with the components [cs]; the root for none. *)
Definition abs_path (cs : list string) : string :=
  match cs with
  | [] => "/"
  | _ => under cs
  end.

(** The directories [_find_file] looks into when started at
    [abs_path cs], in that order: the start, then one ancestor after
    the other, the nearest first; the root only when the start is the
    root. *)
Definition examined (cs : list string) : list string :=
  match cs with
  | [] => ["/"]
  | _ => (fun k => under (take k cs)) <$> reverse (seq 1 (length cs))
  end.


(** Whether directory [dir] has a file with one of the supported
    names. *)
Definition has_supported (host : Host) (dir : string) : bool :=
  bool_decide (Exists (fun entry => isfile host (Path.join dir entry.1) = true)
                 SUPPORTED).

(** What a search of the directories [dirs], in order, finds. *)
Fixpoint first_found (host : Host) (dirs : list string) : string :=
  match dirs with
  | [] => ""
  | dir :: rest =>
      match _find_file_here host dir SUPPORTED with
      | Some filename => filename
      | None => first_found host rest
      end
  end.

(** A host whose only regular file is [/.env]. *)
Definition host_root_env : Host :=
  {| isfile := fun filename => bool_decide (filename = "/.env");
     getcwd := Ok "/";
     open_lines := fun _ => Ok [];
     readfp := fun _ => Raise (ValueError "no parser");
     recursion_limit := 1000 |}.

(** A host with no file at all, whose working directory cannot be
    read (EACCES). *)
Definition host_unreadable_cwd : Host :=
  {| isfile := fun _ => false;
     getcwd := Raise (OSError 13 ".");
     open_lines := fun filename => Raise (OSError 2 filename);
     readfp := fun _ => Raise (ValueError "no parser");
     recursion_limit := 1000 |}.


(** * [Choices] *)





Module Choices.

(** A [Choices] instance. *)
Record t : Type := {
  flat : list pyval;
  cast : pyval -> result pyval;
  choices : list (pyval * string);
  _valid_values : list pyval
}.

(** The default of the [cast] parameter, [str]. *)
Definition cast_str (v : pyval) : result pyval := Ok (PyStr (py_str v)).

(** [Choices.__init__]; [None] for [flat] or [choices] is the
    parameter left out, and [x or []] turns it, like an empty list,
    into [[]]. *)
Definition init (flat : option (list pyval)) (cast : pyval -> result pyval)
    (choices : option (list (pyval * string))) : t :=
  let flat := from_option id [] flat in
  let choices := from_option id [] choices in
  {| flat := flat;
     cast := cast;
     choices := choices;
     _valid_values := ([] ++ flat) ++ ((fun entry => entry.1) <$> choices) |}.


End Choices.

(** * Vocabulary of the further statements *)

(** The quote characters that [RepositoryEnv] strips. *)
Definition env_quotes : string := String Str.squote (String Str.dquote "").

(** [v] is what [RepositoryEnv.__init__] takes for a quoted value: at
    least two characters, the first and the last the same quote. *)
Definition env_quoted (v : string) : bool :=
  (2 <=? Str.len v)
  && ((bool_decide (Str.at_ v 0 = Some Str.squote)
       && bool_decide (Str.at_ v (-1) = Some Str.squote))
      || (bool_decide (Str.at_ v 0 = Some Str.dquote)
          && bool_decide (Str.at_ v (-1) = Some Str.dquote))).

(** A key as a line of a [.env] file can carry it: not empty, trimmed,
    without [=], and not starting a comment. *)
Definition env_key (k : string) : Prop :=
  k ≠ "" ∧ Str.strip k = k ∧ Str.contains "=" k = false
  ∧ Str.startswith "#" k = false.

(** What holds of every key that [RepositoryEnv.__init__] stores. *)
Definition stored_key (k : string) : Prop :=
  Str.strip k = k ∧ Str.contains "=" k = false
  ∧ Str.startswith "#" k = false.

(** The iterator that goes through the outcomes [l] in order: it
    yields the values up to the first exception and raises that one. *)
Fixpoint gen_of_results {A} (l : list (result A)) : generator A :=
  match l with
  | [] => gen_stop
  | Ok a :: rest => gen_yield a (gen_of_results rest)
  | Raise e :: _ => gen_raise e
  end.

(** A character that the tokenizer of [Csv] copies into the current
    token: no delimiter, no quote, no backslash, no comment sign. *)
Definition csv_plain_char (delimiter : string) (c : ascii) : bool :=
  negb (Str.contains c delimiter) && negb (Str.contains c env_quotes)
  && negb (Str.contains c (String "\" "")) && negb (Str.contains c "#").

Fixpoint forallb_string (p : ascii -> bool) (s : string) : bool :=
  match s with
  | EmptyString => true
  | String c r => p c && forallb_string p r
  end.

(** A non-empty word of plain characters. *)
Definition csv_plain_word (delimiter : string) (w : string) : Prop :=
  w ≠ "" ∧ forallb_string (csv_plain_char delimiter) w = true.

(** The tokenizer as [Csv.__call__] sets it up, at some point of its
    run. *)
Definition csv_lexer (delimiter word_chars instream : string)
    (state : option ascii) (token : string) : Shlex.t :=
  {| Shlex.instream := instream;
     Shlex.posix := true;
     Shlex.commenters := "#";
     Shlex.wordchars := word_chars;
     Shlex.whitespace := delimiter;
     Shlex.whitespace_split := true;
     Shlex.quotes := env_quotes;
     Shlex.escape := String "\" "";
     Shlex.escapedquotes := String Str.dquote "";
     Shlex.state := state;
     Shlex.pushback := [];
     Shlex.token := token;
     Shlex.punctuation_chars := "";
     Shlex._pushback_chars := [] |}.

(** * Properties *)

From Stdlib Require DecimalPos DecimalZ.

(** ** Helper lemmas on strings *)

Lemma split_first_contains sep s a b :
  Str.split_first sep s = Some (a, b) → Str.contains sep s = true.
Proof.
  revert a b. induction s as [|c r IH]; intros a b; simpl; [done|].
  destruct (decide (c = sep)) as [->|Hne].
  - intros _. by rewrite decide_True.
  - destruct (Str.split_first sep r) as [[a' b']|] eqn:E; [|done].
    intros _. rewrite decide_False by congruence. by eapply IH.
Qed.

(** ** The resolver *)

Lemma lower_string_of_uint u :
  Str.lower (NilEmpty.string_of_uint u) = NilEmpty.string_of_uint u.
Proof. induction u; simpl; by f_equal. Qed.

Lemma lower_of_int n : Str.lower (Str.of_int n) = Str.of_int n.
Proof.
  unfold Str.of_int, NilZero.string_of_int, NilZero.string_of_uint.
  destruct (Z.to_int n) as [u|u]; destruct u; simpl;
    by rewrite ?lower_string_of_uint.
Qed.

Lemma of_int_parse n s :
  Str.of_int n = s → NilZero.int_of_string s = Some (Z.to_int n).
Proof.
  intros <-. unfold Str.of_int. apply NilZero.isi.
  - destruct n; simpl; [done| |done]. intros [= H].
    by apply DecimalPos.Unsigned.to_uint_nonnil in H.
  - destruct n; simpl; [done|done|]. intros [= H].
    by apply DecimalPos.Unsigned.to_uint_nonnil in H.
Qed.

Lemma of_int_true_token n : Str.of_int n ∈ true_tokens ↔ n = 1%Z.
Proof.
  split; [|by intros ->; vm_compute; repeat constructor].
  unfold true_tokens. rewrite !elem_of_cons, elem_of_nil.
  intros [H|[H|[H|[H|[H|[H|[]]]]]]]; apply of_int_parse in H;
    try discriminate H.
  apply DecimalZ.to_int_inj. by injection H as <-.
Qed.

Lemma of_int_false_token n : Str.of_int n ∈ false_tokens ↔ n = 0%Z.
Proof.
  split; [|by intros ->; vm_compute; repeat constructor].
  unfold false_tokens. rewrite !elem_of_cons, elem_of_nil.
  intros [H|[H|[H|[H|[H|[H|[]]]]]]]; apply of_int_parse in H;
    try discriminate H.
  apply DecimalZ.to_int_inj. by injection H as <-.
Qed.

Lemma tokens_disjoint (l : string) :
  l ∈ false_tokens → l ∈ true_tokens → False.
Proof.
  unfold false_tokens, true_tokens.
  rewrite !elem_of_cons, !elem_of_nil. intuition congruence.
Qed.

Lemma cast_boolean_table (value : pyval) :
  let s := py_str value in
  (s = "" → _cast_boolean value = Ok false)
  ∧ (Str.lower s ∈ false_tokens → _cast_boolean value = Ok false)
  ∧ (Str.lower s ∈ true_tokens → _cast_boolean value = Ok true)
  ∧ (s ≠ "" → Str.lower s ∉ true_tokens → Str.lower s ∉ false_tokens →
     ∃ msg, _cast_boolean value = Raise (ValueError msg)).
Proof.
  intros s. unfold _cast_boolean, strtobool. fold s.
  fold true_tokens false_tokens.
  repeat split.
  - intros ->. reflexivity.
  - intros Hin. case_bool_decide as Hs; [by rewrite Hs|].
    rewrite (bool_decide_eq_true_2 (Str.lower s ∈ false_tokens)) by done.
    case_bool_decide as Ht; [|done].
    destruct (tokens_disjoint _ Hin Ht).
  - intros Hin. case_bool_decide as Hs.
    + rewrite Hs in Hin. simpl in Hin. unfold true_tokens in Hin.
      revert Hin. rewrite !elem_of_cons, !elem_of_nil. intuition congruence.
    + by rewrite bool_decide_eq_true_2.
  - intros Hs Ht Hf. rewrite bool_decide_eq_false_2 by done.
    rewrite (bool_decide_eq_false_2 (Str.lower s ∈ true_tokens)) by done.
    rewrite bool_decide_eq_false_2 by done. eauto.
Qed.

(** The table, for every value that can reach the cast. *)
Lemma cast_boolean_result (raw : pyval) :
  boolean_cast_result raw (PyBool <$> _cast_boolean raw).
Proof.
  destruct raw as [|b|n|s]; cbn [boolean_cast_result].
  - by eexists.
  - by destruct b.
  - split; [by intros ->|]. split; [by intros ->|]. intros H0 H1.
    unfold _cast_boolean, strtobool. cbn [py_str]. rewrite lower_of_int.
    fold true_tokens false_tokens.
    rewrite bool_decide_eq_false_2.
    2:{ intros H. apply (f_equal NilZero.int_of_string) in H.
        rewrite (of_int_parse n _ eq_refl) in H. discriminate H. }
    rewrite bool_decide_eq_false_2 by (by rewrite of_int_true_token).
    rewrite bool_decide_eq_false_2 by (by rewrite of_int_false_token).
    by eexists.
  - destruct (cast_boolean_table (PyStr s)) as (H1 & H2 & H3 & H4).
    cbn [py_str] in *. repeat split.
    + intros E. by rewrite H1.
    + intros E. by rewrite H2.
    + intros E. by rewrite H3.
    + intros E1 E2 E3. destruct (H4 E1 E3 E2) as [msg ->]. by exists msg.
Qed.

(** C1.  A name that is set in [os.environ] resolves to the value the
    environment holds, with the cast applied to it, whatever the
    repository is and holds for that name, whatever the default, and
    also when the value is the empty string: without a cast the value
    comes back as it is, a callable gets it as its argument, and
    [cast=bool] reads it off the token tables. *)
Theorem Config_get_environ_precedence
    (environ : gmap string string) (self : Config) (option : string)
    (default : default_arg) (v : string) :
  environ !! option = Some v →
  Config_get environ self option default _cast_do_nothing = Ok (PyStr v)
  ∧ (∀ f, Config_get environ self option default (cast_callable f)
          = f (PyStr v))
  ∧ boolean_cast_result (PyStr v)
      (Config_get environ self option default cast_bool).
Proof.
  intros Hv.
  assert (Hget : ∀ cast, Config_get environ self option default cast
                         = call_cast cast (PyStr v)).
  { intros cast. unfold Config_get, dict_contains, dict_getitem.
    rewrite Hv. by rewrite bool_decide_eq_true_2 by eauto. }
  split; [by rewrite Hget|]. split; [intros f; by rewrite Hget|].
  rewrite Hget. apply cast_boolean_result.
Qed.

Lemma Config_get_environ_precedence_witness :
  Config_get {[ "KeyOverrideByEnv" := "This" ]}
    {| repository := RepositoryEnv {[ "KeyOverrideByEnv" := "NotThis" ]} |}
    "KeyOverrideByEnv" (Default (PyStr "Neither")) _cast_do_nothing
  = Ok (PyStr "This")
  ∧ (∀ f, Config_get {[ "KeyOverrideByEnv" := "This" ]}
            {| repository := RepositoryEnv {[ "KeyOverrideByEnv" := "NotThis" ]} |}
            "KeyOverrideByEnv" (Default (PyStr "Neither")) (cast_callable f)
          = f (PyStr "This"))
  ∧ boolean_cast_result (PyStr "This")
      (Config_get {[ "KeyOverrideByEnv" := "This" ]}
         {| repository := RepositoryEnv {[ "KeyOverrideByEnv" := "NotThis" ]} |}
         "KeyOverrideByEnv" (Default (PyStr "Neither")) cast_bool).
Proof.
  apply (Config_get_environ_precedence
           {[ "KeyOverrideByEnv" := "This" ]}
           {| repository := RepositoryEnv {[ "KeyOverrideByEnv" := "NotThis" ]} |}
           "KeyOverrideByEnv" (Default (PyStr "Neither")) "This").
  reflexivity.
Defined.

(** The environment wins with an empty value too
    ([test_env_undefined_but_present_in_os_environ]), and a callable
    cast is applied to what the environment holds. *)
Example Config_get_environ_empty_value :
  Config_get {[ "KeyOnlyEnviron" := "" ]}
    {| repository := RepositoryEnv {[ "KeyOnlyEnviron" := "NotThis" ]} |}
    "KeyOnlyEnviron" undefined _cast_do_nothing
  = Ok (PyStr "")
  ∧ Config_get {[ "KeyOnlyEnviron" := "" ]}
      {| repository := RepositoryEnv {[ "KeyOnlyEnviron" := "NotThis" ]} |}
      "KeyOnlyEnviron" undefined
      (cast_callable (fun v => Ok (PyInt (Str.len (py_str v)))))
    = Ok (PyInt 0)
  ∧ Config_get {[ "KeyOnlyEnviron" := "" ]}
      {| repository := RepositoryEnv {[ "KeyOnlyEnviron" := "NotThis" ]} |}
      "KeyOnlyEnviron" undefined cast_bool
    = Ok (PyBool false).
Proof. repeat split; reflexivity. Qed.

(** C2.  A name that neither [os.environ] nor the repository has
    raises [UndefinedValueError] with a message that names the option
    when the default was left at [undefined], whatever the cast.  With
    any other default, [None] included, the default is what the cast is
    applied to: without a cast it comes back as it is, a callable gets
    it as its argument, and [cast=bool] reads its string off the token
    tables. *)
Theorem Config_get_default_or_undefined
    (environ : gmap string string) (self : Config) (option : string) :
  environ !! option = None →
  Repository_contains environ (repository self) option = false →
  (∀ cast,
     Config_get environ self option undefined cast
     = Raise (UndefinedValueError
                (option +:+ " not found. Declare it as envvar or define a default value.")))
  ∧ (∀ d,
       Config_get environ self option (Default d) _cast_do_nothing = Ok d
       ∧ (∀ f, Config_get environ self option (Default d) (cast_callable f)
               = f d)
       ∧ boolean_cast_result d
           (Config_get environ self option (Default d) cast_bool)).
Proof.
  intros Henv Hrepo.
  assert (Hget : ∀ default cast,
            Config_get environ self option default cast =
              match default with
              | undefined =>
                  Raise (UndefinedValueError
                           (option +:+ " not found. Declare it as envvar or define a default value."))
              | Default d => call_cast cast d
              end).
  { intros default cast. unfold Config_get, dict_contains.
    rewrite Henv, Hrepo.
    rewrite bool_decide_eq_false_2 by (intros [? ?]; discriminate).
    by destruct default. }
  split; [intros cast; by rewrite Hget|].
  intros d. split; [by rewrite Hget|]. split; [intros f; by rewrite Hget|].
  rewrite Hget. apply cast_boolean_result.
Qed.

Lemma Config_get_default_or_undefined_witness :
  (∀ cast,
     Config_get ∅ {| repository := RepositoryEnv {[ "KeyEmpty" := "" ]} |}
       "UndefinedKey" undefined cast
     = Raise (UndefinedValueError
                ("UndefinedKey" +:+ " not found. Declare it as envvar or define a default value.")))
  ∧ (∀ d,
       Config_get ∅ {| repository := RepositoryEnv {[ "KeyEmpty" := "" ]} |}
         "UndefinedKey" (Default d) _cast_do_nothing = Ok d
       ∧ (∀ f, Config_get ∅
                 {| repository := RepositoryEnv {[ "KeyEmpty" := "" ]} |}
                 "UndefinedKey" (Default d) (cast_callable f)
               = f d)
       ∧ boolean_cast_result d
           (Config_get ∅ {| repository := RepositoryEnv {[ "KeyEmpty" := "" ]} |}
              "UndefinedKey" (Default d) cast_bool)).
Proof.
  apply (Config_get_default_or_undefined ∅
           {| repository := RepositoryEnv {[ "KeyEmpty" := "" ]} |}
           "UndefinedKey").
  - reflexivity.
  - reflexivity.
Defined.

(** The two halves on the test-suite's inputs ([test_env_undefined],
    [test_env_default_none]), and a callable cast that raises. *)
Example Config_get_undefined_raises :
  Config_get ∅ {| repository := RepositoryEnv {[ "KeyEmpty" := "" ]} |}
    "UndefinedKey" undefined _cast_do_nothing
  = Raise (UndefinedValueError
             "UndefinedKey not found. Declare it as envvar or define a default value.")
  ∧ Config_get ∅ {| repository := RepositoryEnv {[ "KeyEmpty" := "" ]} |}
      "UndefinedKey" (Default PyNone) _cast_do_nothing
    = Ok PyNone
  ∧ Config_get ∅ {| repository := RepositoryEnv {[ "KeyEmpty" := "" ]} |}
      "UndefinedKey" (Default PyNone)
      (cast_callable (fun _ => Raise (ValueError "not a number")))
    = Raise (ValueError "not a number").
Proof. repeat split; reflexivity. Qed.

(** C3.  With [cast=bool] the value the lookup resolved to is turned
    into a string and read off the token table without regard to case.
    For a [str]: the empty string and the false tokens give [False],
    the true tokens give [True], and any other string raises
    [ValueError] out of [Config.get].  For a value that is not a [str]
    the string is [str(value)]: the integers 1 and 0 are the tokens
    [1] and [0], [True] and [False] are the tokens [true] and [false],
    and every other integer and [None] raise [ValueError]. *)
Theorem Config_get_cast_bool
    (environ : gmap string string) (self : Config) (option : string)
    (default : default_arg) (raw : pyval) :
  Config_get environ self option default _cast_do_nothing = Ok raw →
  let r := Config_get environ self option default cast_bool in
  match raw with
  | PyStr s =>
      (s = "" → r = Ok (PyBool false))
      ∧ (Str.lower s ∈ ["n"; "no"; "f"; "false"; "off"; "0"] →
         r = Ok (PyBool false))
      ∧ (Str.lower s ∈ ["y"; "yes"; "t"; "true"; "on"; "1"] →
         r = Ok (PyBool true))
      ∧ (s ≠ "" →
         Str.lower s ∉ ["n"; "no"; "f"; "false"; "off"; "0"] →
         Str.lower s ∉ ["y"; "yes"; "t"; "true"; "on"; "1"] →
         ∃ msg, r = Raise (ValueError msg))
  | PyInt n =>
      (n = 1 → r = Ok (PyBool true))
      ∧ (n = 0 → r = Ok (PyBool false))
      ∧ (n ≠ 0 → n ≠ 1 → ∃ msg, r = Raise (ValueError msg))
  | PyBool b => r = Ok (PyBool b)
  | PyNone => ∃ msg, r = Raise (ValueError msg)
  end.
Proof.
  intros Hraw r.
  assert (Hr : r = PyBool <$> _cast_boolean raw).
  { subst r. revert Hraw. unfold Config_get.
    destruct (if dict_contains environ option then _ else _) as [v|e]; simpl;
      [|discriminate].
    by intros [= ->]. }
  rewrite Hr. exact (cast_boolean_result raw).
Qed.

Lemma Config_get_cast_bool_witness :
  (1 = 1 → Config_get ∅ {| repository := RepositoryEnv {[ "KeyOn" := "On" ]} |}
             "Key1int" (Default (PyInt 1)) cast_bool = Ok (PyBool true))
  ∧ (1 = 0 → Config_get ∅ {| repository := RepositoryEnv {[ "KeyOn" := "On" ]} |}
               "Key1int" (Default (PyInt 1)) cast_bool = Ok (PyBool false))
  ∧ (1 ≠ 0 → 1 ≠ 1 →
     ∃ msg, Config_get ∅ {| repository := RepositoryEnv {[ "KeyOn" := "On" ]} |}
              "Key1int" (Default (PyInt 1)) cast_bool
            = Raise (ValueError msg)).
Proof.
  apply (Config_get_cast_bool ∅
           {| repository := RepositoryEnv {[ "KeyOn" := "On" ]} |}
           "Key1int" (Default (PyInt 1)) (PyInt 1)).
  reflexivity.
Defined.

(** A default that is not a string goes through [str] first
    ([test_env_bool_true], [test_env_bool_false]). *)
Example Config_get_cast_bool_int_default :
  Config_get ∅ {| repository := RepositoryEmpty |} "Key1int"
    (Default (PyInt 1)) cast_bool = Ok (PyBool true)
  ∧ Config_get ∅ {| repository := RepositoryEmpty |} "Key0int"
      (Default (PyInt 0)) cast_bool = Ok (PyBool false)
  ∧ Config_get ∅ {| repository := RepositoryEnv {[ "Key" := "maybe" ]} |}
      "Key" undefined cast_bool
    = Raise (ValueError "invalid truth value 'maybe'").
Proof. repeat split; reflexivity. Qed.

(** ** The repositories *)

(** C10.  For a key that [os.environ] has and the file does not,
    [RepositoryEnv.__contains__] answers [True] and
    [RepositoryEnv.__getitem__] raises [KeyError]; [Config.get] never
    gets that far, since it reads the environment first. *)
Theorem RepositoryEnv_contains_without_item
    (environ data : gmap string string) (key v : string)
    (default : default_arg) (cast : cast_arg) :
  environ !! key = Some v →
  data !! key = None →
  Repository_contains environ (RepositoryEnv data) key = true
  ∧ Repository_getitem (RepositoryEnv data) key = Raise (KeyError key)
  ∧ Config_get environ {| repository := RepositoryEnv data |} key default cast
    = call_cast cast (PyStr v).
Proof.
  intros Henv Hdata. repeat split.
  - simpl. unfold dict_contains. by rewrite bool_decide_eq_true_2 by eauto.
  - simpl. unfold dict_getitem. by rewrite Hdata.
  - unfold Config_get, dict_contains, dict_getitem. rewrite Henv.
    by rewrite bool_decide_eq_true_2 by eauto.
Qed.

Lemma RepositoryEnv_contains_without_item_witness :
  Repository_contains {[ "KeyOnlyEnviron" := "" ]}
    (RepositoryEnv {[ "KeyEmpty" := "" ]}) "KeyOnlyEnviron" = true
  ∧ Repository_getitem (RepositoryEnv {[ "KeyEmpty" := "" ]}) "KeyOnlyEnviron"
    = Raise (KeyError "KeyOnlyEnviron")
  ∧ Config_get {[ "KeyOnlyEnviron" := "" ]}
      {| repository := RepositoryEnv {[ "KeyEmpty" := "" ]} |}
      "KeyOnlyEnviron" undefined _cast_do_nothing
    = call_cast _cast_do_nothing (PyStr "").
Proof.
  apply (RepositoryEnv_contains_without_item
           {[ "KeyOnlyEnviron" := "" ]} {[ "KeyEmpty" := "" ]}
           "KeyOnlyEnviron" "" undefined _cast_do_nothing).
  - reflexivity.
  - reflexivity.
Defined.

(** C8, as the specification has it, fails on [RepositoryEmpty]: its
    [__contains__] is [False] for the key and its [__getitem__] answers
    [None] instead of raising. *)
Lemma RepositoryEmpty_getitem_returns_None :
  Repository_contains ∅ RepositoryEmpty "UndefinedKey" = false
  ∧ Repository_getitem RepositoryEmpty "UndefinedKey" = Ok PyNone.
Proof. split; reflexivity. Qed.

(** C8, amended.  For a key its [__contains__] rejects, [RepositoryEnv]
    raises [KeyError] and [RepositoryIni] raises [NoSectionError] or
    [NoOptionError]; [RepositoryEmpty] answers [None]. *)
Theorem Repository_getitem_missing_key
    (environ : gmap string string) (self : Repository) (key : string) :
  Repository_contains environ self key = false →
  match self with
  | RepositoryEmpty => Repository_getitem self key = Ok PyNone
  | RepositoryEnv _ => Repository_getitem self key = Raise (KeyError key)
  | RepositoryIni _ =>
      Repository_getitem self key = Raise (NoSectionError SECTION)
      ∨ Repository_getitem self key
        = Raise (NoOptionError (optionxform key) SECTION)
  end.
Proof.
  destruct self as [|parser|data]; simpl; [done| |].
  - intros [_ Hhas]%orb_false_iff.
    unfold ConfigParser_get, _unify_values. revert Hhas.
    unfold has_option. simpl.
    destruct (_sections parser !! SECTION) as [sectiondict|] eqn:Hsec.
    + intros [H1 H2]%orb_false_iff. right. simpl.
      unfold dict_contains in H1, H2.
      apply bool_decide_eq_false in H1, H2.
      assert ((sectiondict ∪ _defaults parser) !! optionxform key = None) as ->;
        [|done].
      apply lookup_union_None. split; apply eq_None_not_Some; done.
    + intros _. by left.
  - intros [_ Hdata]%orb_false_iff. unfold dict_contains in Hdata.
    apply bool_decide_eq_false in Hdata.
    unfold dict_getitem. by rewrite (proj2 (eq_None_not_Some _) Hdata).
Qed.

Lemma Repository_getitem_missing_key_witness :
  Repository_getitem (RepositoryEnv {[ "KeyEmpty" := "" ]}) "UndefinedKey"
  = Raise (KeyError "UndefinedKey").
Proof.
  apply (Repository_getitem_missing_key ∅
           (RepositoryEnv {[ "KeyEmpty" := "" ]}) "UndefinedKey").
  reflexivity.
Defined.

(** ** The line format *)

(** C4 fails on the code: where the guard lets a value through,
    [v.strip] with both quote characters removes every quote at either
    end, not one pair.  The line [K=''a''] is stored as [a], where
    stripping one pair leaves ['a']. *)
Theorem RepositoryEnv_line_strips_every_outer_quote :
  RepositoryEnv_line ∅ "K=''a''" = Ok {[ "K" := "a" ]}
  ∧ RepositoryEnv_line ∅ "K=''a''" ≠ Ok {[ "K" := "'a'" ]}.
Proof.
  assert (E : RepositoryEnv_line ∅ "K=''a''" = Ok {[ "K" := "a" ]})
    by reflexivity.
  split; [exact E|]. rewrite E. intros H.
  assert (H' : ({[ "K" := "a" ]} : gmap string string) !! "K"
               = ({[ "K" := "'a'" ]} : gmap string string) !! "K")
    by congruence.
  rewrite !lookup_singleton_eq in H'. discriminate.
Qed.

(** C5, as the specification has it, fails: the line
    [KeyIsSingleQuote='] of the test-suite is stored as the quote
    character itself. *)
Lemma RepositoryEnv_line_keeps_single_quote :
  (RepositoryEnv_line ∅ "KeyIsSingleQuote='"
     ≫= fun data => Ok (data !! "KeyIsSingleQuote"))
  = Ok (Some "'").
Proof. reflexivity. Qed.

(** C5, amended.  A retained line whose trimmed value is one quote
    character, single or double, is stored with that character as its
    value: the guard [len(v) >= 2] keeps the strip away from it. *)
Theorem RepositoryEnv_line_lone_quote
    (data : gmap string string) (line k v : string) :
  Str.truthy (Str.strip line) = true →
  Str.startswith "#" (Str.strip line) = false →
  Str.split_first "=" (Str.strip line) = Some (k, v) →
  Str.strip v = String Str.squote "" ∨ Str.strip v = String Str.dquote "" →
  RepositoryEnv_line data line = Ok (<[Str.strip k := Str.strip v]> data)
  ∧ (<[Str.strip k := Str.strip v]> data) !! Str.strip k = Some (Str.strip v).
Proof.
  intros Hne Hcomment Hsplit Hv. split; [|apply lookup_insert_eq].
  unfold RepositoryEnv_line, Str.split1.
  rewrite Hne, Hcomment, (split_first_contains _ _ _ _ Hsplit), Hsplit.
  simpl. by destruct Hv as [-> | ->].
Qed.

Lemma RepositoryEnv_line_lone_quote_witness :
  RepositoryEnv_line ∅ "KeyIsSingleQuote = ' "
  = Ok (<[Str.strip "KeyIsSingleQuote " := Str.strip " '"]> ∅)
  ∧ (<[Str.strip "KeyIsSingleQuote " := Str.strip " '"]> ∅ : gmap string string)
      !! Str.strip "KeyIsSingleQuote " = Some (Str.strip " '").
Proof.
  apply (RepositoryEnv_line_lone_quote ∅ "KeyIsSingleQuote = ' "
           "KeyIsSingleQuote " " '").
  - reflexivity.
  - reflexivity.
  - reflexivity.
  - left. reflexivity.
Defined.

(** ** [Csv] *)

(** C9.  [Csv()] splits [a, b , c] into [a], [b], [c], each token
    stripped of white space, and keeps the double-quoted [b,c] of
    [a,"b,c",d] as one token. *)
Theorem Csv_default_examples :
  Csv_call Csv_default "a, b , c" = Some (Ok ["a"; "b"; "c"])
  ∧ Csv_call Csv_default
      ("a," +:+ String Str.dquote "b,c" +:+ String Str.dquote ",d")
    = Some (Ok ["a"; "b,c"; "d"]).
Proof. split; vm_compute; reflexivity. Qed.

(** ** Paths *)

Section path_lemmas.

Local Open Scope nat_scope.

Lemma app_String c s t : String c s +:+ t = String c (s +:+ t).
Proof. reflexivity. Qed.

Lemma app_empty_r s : s +:+ "" = s.
Proof. induction s; simpl; [done|]. rewrite app_String. by f_equal. Qed.

Lemma app_assoc_s s t u : (s +:+ t) +:+ u = s +:+ (t +:+ u).
Proof. induction s; [done|]. rewrite !app_String. by f_equal. Qed.

Lemma length_app_s s t :
  String.length (s +:+ t) = String.length s + String.length t.
Proof. induction s; [done|]. rewrite app_String. simpl. by f_equal. Qed.

Lemma rfind_absent c s : Str.contains c s = false → Path.rfind c s = (-1)%Z.
Proof.
  induction s as [|d r IH]; simpl; [done|].
  destruct (decide (c = d)) as [->|Hne]; [done|].
  intros H. rewrite (IH H). simpl. by rewrite decide_False by congruence.
Qed.

Lemma rfind_last c s t :
  Str.contains c t = false →
  Path.rfind c (s +:+ String c t) = Z.of_nat (String.length s).
Proof.
  intros Ht. induction s as [|d r IH].
  - simpl. rewrite (rfind_absent _ _ Ht). simpl. by rewrite decide_True.
  - rewrite app_String. simpl Path.rfind. rewrite IH.
    destruct (0 <=? Z.of_nat (String.length r))%Z eqn:E; [simpl; lia|].
    apply Z.leb_gt in E. lia.
Qed.

Lemma substring_prefix s t :
  String.substring 0 (String.length s) (s +:+ t) = s.
Proof.
  induction s as [|d r IH].
  - by destruct t.
  - rewrite app_String. simpl. by f_equal.
Qed.

Lemma substring_suffix s t :
  String.substring (String.length s) (String.length t) (s +:+ t) = t.
Proof.
  induction s as [|d r IH]; simpl.
  - induction t as [|e u IHu]; simpl; [done|]. by f_equal.
  - done.
Qed.

Lemma rstrip_by_app p s t :
  Str.rstrip_by p (s +:+ t) =
    match Str.rstrip_by p t with
    | "" => Str.rstrip_by p s
    | t' => s +:+ t'
    end.
Proof.
  induction s as [|d r IH].
  - change ("" +:+ t) with t. by destruct (Str.rstrip_by p t).
  - rewrite app_String. simpl. rewrite IH.
    destruct (Str.rstrip_by p t) as [|e u]; [done|].
    destruct r; reflexivity.
Qed.

Lemma rstrip_by_none p s :
  (∀ c, Str.contains c s = true → p c = false) →
  Str.rstrip_by p s = s.
Proof.
  induction s as [|d r IH]; simpl; [done|]. intros H.
  rewrite IH.
  - destruct r; [|done]. rewrite (H d); [done|]. by rewrite decide_True.
  - intros c Hc. apply H. destruct (decide (c = d)); done.
Qed.

Lemma rstrip_sep_component c :
  Str.contains Path.sep c = false →
  Str.rstrip_chars (String Path.sep "") c = c.
Proof.
  intros H. apply rstrip_by_none. intros d Hd. simpl.
  destruct (decide (d = Path.sep)) as [->|]; [congruence|done].
Qed.

Lemma under_snoc cs c : under (cs ++ [c]) = under cs +:+ String Path.sep c.
Proof.
  induction cs as [|d cs IH]; simpl.
  - by rewrite app_empty_r.
  - rewrite IH. rewrite !app_String. f_equal. by rewrite app_assoc_s.
Qed.

Lemma under_nonempty c cs : under (c :: cs) ≠ "".
Proof. simpl. by rewrite app_String. Qed.

Lemma under_not_root c cs : c ≠ "" → under (c :: cs) ≠ "/".
Proof.
  intros Hc. simpl. rewrite app_String. destruct c; [done|].
  by rewrite app_String.
Qed.

Lemma rstrip_under cs :
  Forall component cs →
  Str.rstrip_chars (String Path.sep "") (under cs) = under cs.
Proof.
  induction cs as [|c cs IH] using rev_ind; [done|].
  intros [Hcs [[Hne Hc] _]%Forall_cons]%Forall_app.
  rewrite under_snoc. unfold Str.rstrip_chars. rewrite rstrip_by_app.
  change (String Path.sep c) with (String Path.sep "" +:+ c).
  rewrite rstrip_by_app.
  fold (Str.rstrip_chars (String Path.sep "") c).
  rewrite (rstrip_sep_component _ Hc).
  destruct c; [done|]. by rewrite app_String.
Qed.

Lemma rstrip_repeat_sep n :
  Str.rstrip_chars (String Path.sep "") (Path.repeat_char Path.sep n) = "".
Proof.
  induction n as [|n IH]; [done|]. unfold Str.rstrip_chars in *.
  cbn [Path.repeat_char Str.rstrip_by]. rewrite IH. reflexivity.
Qed.

(** [dirname] takes the last component off. *)
Lemma dirname_snoc cs c :
  Forall component cs → component c →
  Path.dirname (under (cs ++ [c])) = abs_path cs.
Proof.
  intros Hcs [Hne Hc]. rewrite under_snoc. unfold Path.dirname.
  rewrite (rfind_last _ _ _ Hc).
  assert (Path.slice_to (under cs +:+ String Path.sep c)
            (Z.of_nat (String.length (under cs)) + 1)
          = under cs +:+ String Path.sep "") as ->.
  { unfold Path.slice_to.
    replace (Z.to_nat (Z.of_nat (String.length (under cs)) + 1))
      with (String.length (under cs +:+ String Path.sep "")).
    - change (String Path.sep c) with (String Path.sep "" +:+ c).
      rewrite <- app_assoc_s. apply substring_prefix.
    - rewrite length_app_s. simpl. lia. }
  destruct cs as [|d cs]; [done|].
  assert (Hstrip : Str.rstrip_chars (String Path.sep "")
                     (under (d :: cs) +:+ String Path.sep "")
                   = under (d :: cs)).
  { unfold Str.rstrip_chars. rewrite rstrip_by_app. simpl Str.rstrip_by at 1.
    apply (rstrip_under _ Hcs). }
  assert (Str.truthy (under (d :: cs) +:+ String Path.sep "") = true) as ->
    by reflexivity.
  rewrite bool_decide_eq_false_2.
  - simpl negb. simpl andb. cbv iota. exact Hstrip.
  - intros E. rewrite E in Hstrip. rewrite rstrip_repeat_sep in Hstrip.
    by apply (under_nonempty d cs).
Qed.

Lemma abspath_root host : abspath host (String Path.sep "") = Ok "/".
Proof. reflexivity. Qed.

End path_lemmas.

(** ** The upward search *)


Lemma find_file_here_None host dir :
  _find_file_here host dir SUPPORTED = None ↔ has_supported host dir = false.
Proof.
  unfold has_supported. rewrite bool_decide_eq_false. unfold SUPPORTED.
  rewrite !Exists_cons, Exists_nil. simpl.
  destruct (isfile host (Path.join dir "settings.ini"));
    destruct (isfile host (Path.join dir ".env")); intuition congruence.
Qed.



Lemma examined_snoc cs c :
  examined (cs ++ [c]) =
    under (cs ++ [c]) :: match cs with [] => [] | _ => examined cs end.
Proof.
  destruct cs as [|d cs]; [reflexivity|].
  set (l := d :: cs). assert (Hl : l ≠ []) by done.
  assert (E : examined (l ++ [c])
              = (fun k => under (take k (l ++ [c])))
                  <$> reverse (seq 1 (length (l ++ [c])))) by reflexivity.
  rewrite E. clear E.
  assert (E : examined l
              = (fun k => under (take k l)) <$> reverse (seq 1 (length l)))
    by reflexivity.
  rewrite E. clear E. clearbody l.
  rewrite length_app. simpl length.
  replace (length l + 1)%nat with (S (length l)) by lia.
  rewrite seq_S, reverse_app. simpl. f_equal.
  - f_equal. replace (S (length l)) with (length (l ++ [c])).
    + apply firstn_all.
    + rewrite length_app. simpl. lia.
  - apply Forall_fmap_ext, Forall_forall. intros k Hk.
    apply elem_of_reverse, elem_of_seq in Hk.
    f_equal. apply take_app_le. lia.
Qed.


(** What the search returns, for a start given by its components. *)
Lemma find_file_examined host cs depth :
  Forall component cs → (length cs < depth)%nat →
  _find_file depth host (abs_path cs) = Ok (first_found host (examined cs)).
Proof.
  revert depth. induction cs as [|c cs IH] using rev_ind; intros depth Hcs Hd.
  - destruct depth as [|depth]; [simpl in Hd; lia|].
    simpl. by destruct (if isfile host _ then _ else _).
  - apply Forall_app in Hcs as [Hcs [Hc _]%Forall_cons].
    rewrite length_app in Hd. simpl in Hd.
    destruct depth as [|depth]; [lia|].
    rewrite examined_snoc.
    assert (abs_path (cs ++ [c]) = under (cs ++ [c])) as ->
      by (by destruct cs).
    cbn [_find_file first_found].
    destruct (_find_file_here host (under (cs ++ [c])) SUPPORTED); [done|].
    rewrite (dirname_snoc _ _ Hcs Hc), abspath_root.
    destruct cs as [|d cs]; [reflexivity|].
    assert (Str.truthy (abs_path (d :: cs)) = true) as -> by reflexivity.
    cbn [mbind result_bind].
    rewrite bool_decide_eq_true_2.
    + apply IH; [done|lia].
    + apply under_not_root. by apply Forall_cons in Hcs as [[? _] _].
Qed.




(** The file of the nearest directory wins, and [settings.ini] before
    [.env] where both are there. *)
Example find_file_nearest_first :
  _find_file 10
    {| isfile := fun f =>
         bool_decide (f ∈ ["/a/.env"; "/a/b/.env"; "/a/b/settings.ini"]);
       getcwd := Ok "/"; open_lines := fun _ => Ok [];
       readfp := fun _ => Raise (ValueError "no parser");
       recursion_limit := 10 |}
    "/a/b/c"
  = Ok "/a/b/settings.ini".
Proof. reflexivity. Qed.

(** ** The lazy loader *)

(** C7.  When the search for the file raises, be it in
    [os.path.abspath] or in [_find_file], the first call of an
    [AutoConfig] swallows the exception, builds its [Config] over
    [RepositoryEmpty], and answers what that [Config] answers. *)
Theorem AutoConfig_call_swallows_discovery_error
    (host : Host) (environ : gmap string string) (self : AutoConfig)
    (caller_path option : string) (default : default_arg) (cast : cast_arg)
    (e : exn) :
  config self = None →
  abspath host
    (match search_path self with
     | Some p => if Str.truthy p then p else caller_path
     | None => caller_path
     end)
    ≫= _find_file (recursion_limit host) host = Raise e →
  AutoConfig_call host environ self caller_path option default cast =
    ({| search_path := search_path self;
        config := Some {| repository := RepositoryEmpty |} |},
     Config_get environ {| repository := RepositoryEmpty |}
       option default cast).
Proof.
  intros Hcfg Hraise. unfold AutoConfig_call, _load.
  rewrite Hcfg, Hraise. reflexivity.
Qed.

Lemma AutoConfig_call_swallows_discovery_error_witness :
  AutoConfig_call host_unreadable_cwd ∅ (AutoConfig_init (Some "conf"))
    "/srv/app" "DEBUG" (Default (PyStr "off")) cast_bool =
    ({| search_path := Some "conf";
        config := Some {| repository := RepositoryEmpty |} |},
     Config_get ∅ {| repository := RepositoryEmpty |}
       "DEBUG" (Default (PyStr "off")) cast_bool).
Proof.
  apply (AutoConfig_call_swallows_discovery_error host_unreadable_cwd ∅
           (AutoConfig_init (Some "conf")) "/srv/app" "DEBUG"
           (Default (PyStr "off")) cast_bool (OSError 13 ".")).
  - reflexivity.
  - reflexivity.
Defined.

(** A start with two leading slashes keeps [dirname] at [//], which is
    not the root [/]: the search recurses until the interpreter raises
    [RecursionError], and the loader swallows that as well. *)
Example AutoConfig_call_double_slash :
  (abspath host_root_env "//a"
     ≫= _find_file (recursion_limit host_root_env) host_root_env)
  = Raise RecursionError
  ∧ AutoConfig_call host_root_env ∅ (AutoConfig_init (Some "//a"))
      "/srv/app" "DEBUG" (Default (PyStr "off")) cast_bool
    = ({| search_path := Some "//a";
          config := Some {| repository := RepositoryEmpty |} |},
       Ok (PyBool false)).
Proof. split; vm_compute; reflexivity. Qed.


(** * Further properties *)

(** ** Stripping *)

Section strip_lemmas.

Local Open Scope nat_scope.
Context (p : ascii → bool).

Lemma forallb_string_app q s t :
  forallb_string q (s +:+ t) = forallb_string q s && forallb_string q t.
Proof.
  induction s as [|c r IH]; [done|]. rewrite app_String. simpl.
  rewrite IH. by rewrite andb_assoc.
Qed.

Lemma lstrip_by_length s : String.length (Str.lstrip_by p s) ≤ String.length s.
Proof.
  induction s as [|c r IH]; simpl; [lia|]. destruct (p c); simpl; lia.
Qed.

Lemma rstrip_by_length s : String.length (Str.rstrip_by p s) ≤ String.length s.
Proof.
  induction s as [|c r IH]; simpl; [lia|].
  destruct (Str.rstrip_by p r); [destruct (p c)|]; simpl in *; lia.
Qed.

Lemma lstrip_by_all ws s :
  forallb_string p ws = true → Str.lstrip_by p (ws +:+ s) = Str.lstrip_by p s.
Proof.
  induction ws as [|c r IH]; [done|]. rewrite app_String. simpl.
  intros [-> H]%andb_true_iff. by apply IH.
Qed.

Lemma rstrip_by_all_empty ws :
  forallb_string p ws = true → Str.rstrip_by p ws = "".
Proof.
  induction ws as [|c r IH]; [done|]. simpl.
  intros [-> H]%andb_true_iff. by rewrite IH.
Qed.

Lemma rstrip_by_all s ws :
  forallb_string p ws = true → Str.rstrip_by p (s +:+ ws) = Str.rstrip_by p s.
Proof.
  intros H. by rewrite rstrip_by_app, (rstrip_by_all_empty _ H).
Qed.

Lemma rstrip_by_keep s t :
  t ≠ "" → Str.rstrip_by p t = t → Str.rstrip_by p (s +:+ t) = s +:+ t.
Proof.
  intros Hne Ht. rewrite rstrip_by_app, Ht. by destruct t.
Qed.

Lemma lstrip_by_keep s t :
  s ≠ "" → Str.lstrip_by p s = s → Str.lstrip_by p (s +:+ t) = s +:+ t.
Proof.
  destruct s as [|c r]; [done|]. intros _. rewrite app_String. simpl.
  destruct (p c) eqn:E; [|done].
  intros H. pose proof (lstrip_by_length r) as Hlen.
  rewrite H in Hlen. simpl in Hlen. lia.
Qed.

(** A string that [strip] leaves alone is left alone on both sides. *)
Lemma strip_by_fixed s :
  Str.strip_by p s = s → Str.lstrip_by p s = s ∧ Str.rstrip_by p s = s.
Proof.
  unfold Str.strip_by. destruct s as [|c r]; [done|].
  simpl Str.lstrip_by. destruct (p c) eqn:E; [|done].
  intros H. pose proof (rstrip_by_length (Str.lstrip_by p r)) as H1.
  pose proof (lstrip_by_length r) as H2. rewrite H in H1. simpl in H1. lia.
Qed.

Lemma rstrip_by_idem s :
  Str.rstrip_by p (Str.rstrip_by p s) = Str.rstrip_by p s.
Proof.
  induction s as [|c r IH]; [done|]. simpl.
  destruct (Str.rstrip_by p r) as [|d u] eqn:E.
  - destruct (p c) eqn:Ec; [done|]. simpl. by rewrite Ec.
  - simpl in *. by rewrite IH.
Qed.

Lemma lstrip_by_head s c r : Str.lstrip_by p s = String c r → p c = false.
Proof.
  induction s as [|d u IH]; simpl; [done|].
  destruct (p d) eqn:E; [done|]. by intros [= <- <-].
Qed.

Lemma rstrip_by_head c r :
  p c = false → ∃ r', Str.rstrip_by p (String c r) = String c r'.
Proof.
  intros Hc. simpl. destruct (Str.rstrip_by p r); [rewrite Hc|]; eauto.
Qed.

(** What [strip] returns is empty or starts with a character that
    stays. *)
Lemma strip_by_head s c r : Str.strip_by p s = String c r → p c = false.
Proof.
  unfold Str.strip_by. destruct (Str.lstrip_by p s) as [|d u] eqn:E; [done|].
  pose proof (lstrip_by_head _ _ _ E) as Hd.
  destruct (rstrip_by_head d u Hd) as [r' ->]. by intros [= <- _].
Qed.

Lemma strip_by_idem s :
  Str.strip_by p (Str.strip_by p s) = Str.strip_by p s.
Proof.
  destruct (Str.strip_by p s) as [|c r] eqn:E; [done|].
  pose proof (strip_by_head _ _ _ E) as Hc.
  unfold Str.strip_by at 1. simpl Str.lstrip_by. rewrite Hc.
  rewrite <- E. unfold Str.strip_by. apply rstrip_by_idem.
Qed.

Lemma lstrip_by_contains c s :
  Str.contains c (Str.lstrip_by p s) = true → Str.contains c s = true.
Proof.
  induction s as [|d u IH]; simpl; [done|].
  destruct (p d); [|done]. intros H. rewrite (IH H). by destruct (decide _).
Qed.

Lemma rstrip_by_contains c s :
  Str.contains c (Str.rstrip_by p s) = true → Str.contains c s = true.
Proof.
  induction s as [|d u IH]; simpl; [done|].
  destruct (Str.rstrip_by p u) as [|e v] eqn:E.
  - destruct (p d); [done|]. simpl. destruct (decide (c = d)); done.
  - cbn [Str.contains]. destruct (decide (c = d)); [done|]. exact IH.
Qed.

Lemma strip_by_not_contains c s :
  Str.contains c s = false → Str.contains c (Str.strip_by p s) = false.
Proof.
  intros H. destruct (Str.contains c (Str.strip_by p s)) eqn:E; [|done].
  apply rstrip_by_contains, lstrip_by_contains in E. congruence.
Qed.

End strip_lemmas.

(** ** Parsing the line format *)

Lemma split_first_of_contains sep s :
  Str.contains sep s = true →
  ∃ a b, Str.split_first sep s = Some (a, b) ∧ Str.contains sep a = false.
Proof.
  induction s as [|c r IH]; simpl; [done|].
  destruct (decide (sep = c)) as [->|Hne].
  - intros _. rewrite decide_True by done. by exists "", r.
  - intros H. destruct (IH H) as (a & b & -> & Ha).
    rewrite decide_False by congruence. exists (String c a), b.
    split; [done|]. simpl. by rewrite decide_False.
Qed.

Lemma split_first_app sep a b :
  Str.contains sep a = false →
  Str.split_first sep (a +:+ String sep b) = Some (a, b).
Proof.
  induction a as [|c r IH].
  - intros _. simpl. by rewrite decide_True.
  - rewrite app_String. simpl.
    destruct (decide (sep = c)) as [->|Hne]; [done|].
    intros H. rewrite decide_False by congruence. by rewrite (IH H).
Qed.

Lemma split_first_head sep s c r b :
  Str.split_first sep s = Some (String c r, b) → ∃ r0, s = String c r0.
Proof.
  destruct s as [|d u]; simpl; [done|].
  destruct (decide (d = sep)); [done|].
  destruct (Str.split_first sep u) as [[a' b']|]; [|done].
  intros [= -> _ _]. eauto.
Qed.

Lemma startswith_hash c r :
  Str.startswith "#" (String c r) = bool_decide (c = "#"%char).
Proof.
  unfold Str.startswith.
  change (String.prefix "#" (String c r))
    with (if ascii_dec "#" c then String.prefix "" r else false).
  destruct (ascii_dec "#" c) as [<-|Hne].
  - rewrite bool_decide_eq_true_2 by done. by destruct r.
  - rewrite bool_decide_eq_false_2; [done|]. intros ->. by apply Hne.
Qed.

(** A line is skipped, or it sets one key; it never raises. *)
Lemma RepositoryEnv_line_cases data line :
  RepositoryEnv_line data line = Ok data
  ∨ ∃ k v, stored_key k ∧ RepositoryEnv_line data line = Ok (<[k := v]> data).
Proof.
  unfold RepositoryEnv_line.
  destruct (Str.strip line) as [|c0 l0] eqn:Eline; [by left|].
  destruct (Str.startswith "#" (String c0 l0)) eqn:Ehash; [by left|].
  destruct (Str.contains "=" (String c0 l0)) eqn:Eeq; [|by left].
  right. cbn [Str.truthy negb orb].
  destruct (split_first_of_contains _ _ Eeq) as (a & b & Hsplit & Ha).
  unfold Str.split1. rewrite Hsplit.
  eexists (Str.strip a), _. split; [|reflexivity].
  split; [apply strip_by_idem|]. split; [by apply strip_by_not_contains|].
  destruct a as [|c r]; [done|].
  destruct (split_first_head _ _ _ _ _ Hsplit) as [r0 [= <- <-]].
  pose proof (strip_by_head _ _ _ _ Eline) as Hspace.
  rewrite startswith_hash in Ehash. apply bool_decide_eq_false in Ehash.
  unfold Str.strip, Str.strip_by. simpl Str.lstrip_by. rewrite Hspace.
  destruct (rstrip_by_head Str.isspace c0 r Hspace) as [r' ->].
  rewrite startswith_hash. by apply bool_decide_eq_false.
Qed.

Lemma RepositoryEnv_lines_keys data lines :
  (∀ k, is_Some (data !! k) → stored_key k) →
  ∃ data', RepositoryEnv_lines data lines = Ok data'
           ∧ ∀ k, is_Some (data' !! k) → stored_key k.
Proof.
  revert data. induction lines as [|line rest IH]; intros data Hdata.
  - by exists data.
  - simpl. destruct (RepositoryEnv_line_cases data line)
      as [-> | (k & v & Hk & ->)]; simpl.
    + by apply IH.
    + apply IH. intros k' [w Hw]. destruct (decide (k = k')) as [<-|Hne]; [done|].
      rewrite lookup_insert_ne in Hw by done. apply Hdata. eauto.
Qed.

Lemma RepositoryEnv_lines_app data lines1 lines2 :
  RepositoryEnv_lines data (lines1 ++ lines2) =
    RepositoryEnv_lines data lines1 ≫= fun d => RepositoryEnv_lines d lines2.
Proof.
  revert data. induction lines1 as [|line rest IH]; intros data; [done|].
  simpl. destruct (RepositoryEnv_line data line); simpl; [apply IH|done].
Qed.

(** X1.  Once the lines of a [.env] file are read, building the
    mapping from them never raises, and every key it defines is
    trimmed, has no [=] in it and does not start with the comment
    sign. *)
Theorem RepositoryEnv_init_keys
    (host : Host) (source : string) (lines : list string) :
  open_lines host source = Ok lines →
  ∃ data,
    RepositoryEnv_init host source = Ok (RepositoryEnv data)
    ∧ ∀ k, is_Some (data !! k) →
        Str.strip k = k ∧ Str.contains "=" k = false
        ∧ Str.startswith "#" k = false.
Proof.
  intros Hopen. unfold RepositoryEnv_init. rewrite Hopen. simpl.
  destruct (RepositoryEnv_lines_keys ∅ lines) as (data & -> & Hkeys).
  - intros k [v Hv]. by rewrite lookup_empty in Hv.
  - by exists data.
Qed.

Lemma RepositoryEnv_init_keys_witness :
  ∃ data,
    RepositoryEnv_init
      {| isfile := fun _ => true; getcwd := Ok "/";
         open_lines := fun _ =>
           Ok ["KeyTrue=True"; ""; "#CommentedKey=None";
               " IgnoreSpace = text "; "PercentNotEscaped=%%";
               "NoEqualsSign"; "KeyEmpty="; "Url = http://h/?a=b#c"];
         readfp := fun _ => Raise (ValueError "no parser");
         recursion_limit := 10 |} ".env"
    = Ok (RepositoryEnv data)
    ∧ ∀ k, is_Some (data !! k) →
        Str.strip k = k ∧ Str.contains "=" k = false
        ∧ Str.startswith "#" k = false.
Proof.
  apply (RepositoryEnv_init_keys _ ".env"
           ["KeyTrue=True"; ""; "#CommentedKey=None";
            " IgnoreSpace = text "; "PercentNotEscaped=%%";
            "NoEqualsSign"; "KeyEmpty="; "Url = http://h/?a=b#c"]).
  reflexivity.
Defined.

(** The mapping that file gives: five keys, split at the first [=]. *)
Example RepositoryEnv_init_keys_example :
  RepositoryEnv_lines ∅
    ["KeyTrue=True"; ""; "#CommentedKey=None";
     " IgnoreSpace = text "; "PercentNotEscaped=%%";
     "NoEqualsSign"; "KeyEmpty="; "Url = http://h/?a=b#c"]
  = Ok (<["KeyTrue" := "True"]> (<["IgnoreSpace" := "text"]>
         (<["PercentNotEscaped" := "%%"]> (<["KeyEmpty" := ""]>
           (<["Url" := "http://h/?a=b#c"]> ∅))))).
Proof. vm_compute. reflexivity. Qed.

Section env_line.

Context (ws1 ws2 ws3 ws4 : string).
Context (Hws1 : forallb_string Str.isspace ws1 = true).
Context (Hws2 : forallb_string Str.isspace ws2 = true).
Context (Hws3 : forallb_string Str.isspace ws3 = true).
Context (Hws4 : forallb_string Str.isspace ws4 = true).

Lemma isspace_no_equals ws :
  forallb_string Str.isspace ws = true → Str.contains "=" ws = false.
Proof.
  induction ws as [|c r IH]; [done|]. simpl.
  intros [Hc Hr]%andb_true_iff. destruct (decide ("="%char = c)) as [<-|_].
  - discriminate Hc.
  - by apply IH.
Qed.

Lemma contains_app c s t :
  Str.contains c (s +:+ t) = Str.contains c s || Str.contains c t.
Proof.
  induction s as [|d u IH]; [done|]. rewrite app_String. simpl.
  by destruct (decide (c = d)).
Qed.

(** A line [k = V], padded with white space, where [k] is a key and
    [V] a trimmed value: what the loop body stores. *)
Lemma RepositoryEnv_line_padded data k V :
  env_key k → Str.strip V = V →
  RepositoryEnv_line data
    (ws1 +:+ k +:+ ws2 +:+ "=" +:+ ws3 +:+ V +:+ ws4)
  = Ok (<[k := if env_quoted V then Str.strip_chars env_quotes V else V]> data).
Proof.
  intros (Hk & Hkstrip & Hkeq & Hkhash) HV.
  destruct (strip_by_fixed _ _ Hkstrip) as [Hkl Hkr].
  destruct (strip_by_fixed _ _ HV) as [HVl HVr].
  set (tail := if decide (V = "") then "" else ws3 +:+ V).
  assert (Hline : Str.strip (ws1 +:+ k +:+ ws2 +:+ "=" +:+ ws3 +:+ V +:+ ws4)
                  = (k +:+ ws2) +:+ String "=" tail).
  { unfold Str.strip, Str.strip_by.
    rewrite (lstrip_by_all _ _ _ Hws1), (lstrip_by_keep _ _ _ Hk Hkl).
    change ("=" +:+ ws3 +:+ V +:+ ws4) with (String "=" (ws3 +:+ V +:+ ws4)).
    subst tail. destruct (decide (V = "")) as [->|HVne].
    - change ("" +:+ ws4) with ws4.
      replace (k +:+ ws2 +:+ String "=" (ws3 +:+ ws4))
        with (((k +:+ ws2) +:+ "=") +:+ (ws3 +:+ ws4))
        by (by rewrite !app_assoc_s).
      rewrite rstrip_by_all
        by (by rewrite forallb_string_app, Hws3, Hws4).
      by rewrite rstrip_by_keep.
    - replace (k +:+ ws2 +:+ String "=" (ws3 +:+ V +:+ ws4))
        with ((((k +:+ ws2) +:+ String "=" ws3) +:+ V) +:+ ws4)
        by (rewrite !app_assoc_s; by rewrite !app_String).
      rewrite (rstrip_by_all _ _ _ Hws4).
      rewrite (rstrip_by_keep _ _ _ HVne HVr).
      rewrite !app_assoc_s. by rewrite !app_String. }
  assert (Hkw : Str.contains "=" (k +:+ ws2) = false)
    by (by rewrite contains_app, Hkeq, (isspace_no_equals _ Hws2)).
  unfold RepositoryEnv_line. rewrite Hline.
  assert (Str.truthy ((k +:+ ws2) +:+ String "=" tail) = true) as ->.
  { destruct k; [done|]. reflexivity. }
  assert (Str.startswith "#" ((k +:+ ws2) +:+ String "=" tail) = false) as ->.
  { destruct k as [|c r]; [done|]. rewrite !app_String.
    rewrite startswith_hash in *. done. }
  assert (Str.contains "=" ((k +:+ ws2) +:+ String "=" tail) = true) as ->.
  { rewrite contains_app. simpl. by rewrite orb_true_r. }
  unfold Str.split1. rewrite (split_first_app _ _ _ Hkw).
  cbn [negb orb].
  assert (Str.strip (k +:+ ws2) = k) as ->.
  { unfold Str.strip, Str.strip_by.
    by rewrite (lstrip_by_keep _ _ _ Hk Hkl), (rstrip_by_all _ _ _ Hws2). }
  assert (Str.strip tail = V) as ->.
  { subst tail. destruct (decide (V = "")) as [->|_]; [done|].
    unfold Str.strip, Str.strip_by. rewrite (lstrip_by_all _ _ _ Hws3).
    apply HV. }
  reflexivity.
Qed.

End env_line.

Lemma RepositoryEnv_lines_total data lines :
  ∃ data', RepositoryEnv_lines data lines = Ok data'.
Proof.
  revert data. induction lines as [|line rest IH]; intros data; [by eexists|].
  simpl. destruct (RepositoryEnv_line_cases data line)
    as [-> | (k & v & _ & ->)]; apply IH.
Qed.

Lemma at_first c s : Str.at_ (String c s) 0 = Some c.
Proof.
  unfold Str.at_, Str.len. change (0 <? 0) with false. cbv iota.
  destruct (_ && _) eqn:E; [done|]. simpl String.length in E.
  apply andb_false_iff in E as [E|E]; [apply Z.leb_gt in E|apply Z.ltb_ge in E];
    lia.
Qed.

Lemma get_app_length s c t :
  String.get (String.length s) (s +:+ String c t) = Some c.
Proof. induction s as [|d u IH]; [done|]. rewrite app_String. exact IH. Qed.

Lemma at_last s c : Str.at_ (s +:+ String c "") (-1) = Some c.
Proof.
  unfold Str.at_, Str.len. rewrite length_app_s.
  change (-1 <? 0) with true. cbv iota. simpl String.length.
  replace (-1 + Z.of_nat (String.length s + 1))
    with (Z.of_nat (String.length s)) by lia.
  rewrite Nat2Z.id, get_app_length.
  destruct (_ && _) eqn:E; [done|].
  apply andb_false_iff in E as [E|E]; [apply Z.leb_gt in E|apply Z.ltb_ge in E];
    lia.
Qed.

(** After any lines, a padded line [k = V] stores what the loop body
    makes of [V], and the lines before never raise. *)
Lemma RepositoryEnv_lines_last data lines ws1 ws2 ws3 ws4 k V :
  forallb_string Str.isspace ws1 = true →
  forallb_string Str.isspace ws2 = true →
  forallb_string Str.isspace ws3 = true →
  forallb_string Str.isspace ws4 = true →
  env_key k → Str.strip V = V →
  ∃ before,
    RepositoryEnv_lines data lines = Ok before
    ∧ RepositoryEnv_lines data
        (lines ++ [ws1 +:+ k +:+ ws2 +:+ "=" +:+ ws3 +:+ V +:+ ws4])
      = Ok (<[k := if env_quoted V then Str.strip_chars env_quotes V else V]>
              before).
Proof.
  intros H1 H2 H3 H4 Hk HV.
  destruct (RepositoryEnv_lines_total data lines) as [before Hbefore].
  exists before. split; [done|].
  rewrite RepositoryEnv_lines_app, Hbefore. simpl.
  by rewrite (RepositoryEnv_line_padded ws1 ws2 ws3 ws4 H1 H2 H3 H4 before k V Hk HV).
Qed.

Lemma quoted_value_facts q v :
  q = Str.squote ∨ q = Str.dquote →
  Str.strip_chars env_quotes v = v →
  let V := String q v +:+ String q "" in
  Str.strip V = V ∧ env_quoted V = true ∧ Str.strip_chars env_quotes V = v.
Proof.
  intros Hq Hv V.
  assert (Hspace : Str.isspace q = false) by (by destruct Hq as [-> | ->]).
  assert (Hquote : Str.contains q env_quotes = true)
    by (by destruct Hq as [-> | ->]).
  repeat split.
  - unfold Str.strip, Str.strip_by. subst V. rewrite app_String.
    simpl Str.lstrip_by. rewrite Hspace. rewrite <- app_String.
    apply rstrip_by_keep; [done|]. simpl. by rewrite Hspace.
  - unfold env_quoted. subst V. rewrite at_last. rewrite app_String, at_first.
    unfold Str.len. simpl String.length. rewrite length_app_s.
    assert ((2 <=? Z.of_nat (S (String.length v + String.length (String q ""))))
            = true)
      as -> by (apply Z.leb_le; simpl; lia).
    by destruct Hq as [-> | ->].
  - destruct (strip_by_fixed _ _ Hv) as [Hvl Hvr].
    unfold Str.strip_chars, Str.strip_by. subst V. rewrite app_String.
    cbn [Str.lstrip_by]. rewrite Hquote.
    destruct (decide (v = "")) as [->|Hne].
    + change ("" +:+ String q "") with (String q "").
      cbn [Str.lstrip_by Str.rstrip_by]. by rewrite Hquote.
    + rewrite (lstrip_by_keep _ _ _ Hne Hvl).
      rewrite rstrip_by_all; [done|]. cbn [forallb_string]. by rewrite Hquote.
Qed.

(** X2.  Round trip of a plain value.  After any lines, a line
    [k = v] (white space allowed around the key, the [=] and the value,
    a line end included) where [v] is trimmed and not quoted leaves [v]
    itself under [k], whatever was stored there, and changes no other
    key. *)
Theorem RepositoryEnv_plain_value_round_trip
    (data : gmap string string) (lines : list string)
    (ws1 ws2 ws3 ws4 k v : string) :
  forallb_string Str.isspace ws1 = true →
  forallb_string Str.isspace ws2 = true →
  forallb_string Str.isspace ws3 = true →
  forallb_string Str.isspace ws4 = true →
  env_key k → Str.strip v = v → env_quoted v = false →
  ∃ before,
    RepositoryEnv_lines data lines = Ok before
    ∧ RepositoryEnv_lines data
        (lines ++ [ws1 +:+ k +:+ ws2 +:+ "=" +:+ ws3 +:+ v +:+ ws4])
      = Ok (<[k := v]> before).
Proof.
  intros H1 H2 H3 H4 Hk Hv Hq.
  destruct (RepositoryEnv_lines_last data lines ws1 ws2 ws3 ws4 k v
              H1 H2 H3 H4 Hk Hv) as (before & Hbefore & Hlast).
  exists before. split; [done|]. by rewrite Hq in Hlast.
Qed.

Lemma RepositoryEnv_plain_value_round_trip_witness :
  ∃ before,
    RepositoryEnv_lines ∅ ["IgnoreSpace=old"; "#IgnoreSpace=no"] = Ok before
    ∧ RepositoryEnv_lines ∅
        (["IgnoreSpace=old"; "#IgnoreSpace=no"]
         ++ ["" +:+ "IgnoreSpace" +:+ " " +:+ "=" +:+ " " +:+ "text"
             +:+ String "010" ""])
      = Ok (<["IgnoreSpace" := "text"]> before).
Proof.
  apply (RepositoryEnv_plain_value_round_trip ∅
           ["IgnoreSpace=old"; "#IgnoreSpace=no"]
           "" " " " " (String "010" "") "IgnoreSpace" "text");
    try reflexivity.
  repeat split; done.
Defined.

(** X3.  Round trip of a quoted value.  A value [v] that neither
    starts nor ends with a quote character, written between two single
    or two double quotes, is stored as [v]: the white space inside the
    quotes stays, the quotes go. *)
Theorem RepositoryEnv_quoted_value_round_trip
    (data : gmap string string) (lines : list string)
    (ws1 ws2 ws3 ws4 k v : string) (q : ascii) :
  forallb_string Str.isspace ws1 = true →
  forallb_string Str.isspace ws2 = true →
  forallb_string Str.isspace ws3 = true →
  forallb_string Str.isspace ws4 = true →
  env_key k →
  q = Str.squote ∨ q = Str.dquote →
  Str.strip_chars env_quotes v = v →
  ∃ before,
    RepositoryEnv_lines data lines = Ok before
    ∧ RepositoryEnv_lines data
        (lines ++ [ws1 +:+ k +:+ ws2 +:+ "=" +:+ ws3
                   +:+ (String q v +:+ String q "") +:+ ws4])
      = Ok (<[k := v]> before).
Proof.
  intros H1 H2 H3 H4 Hk Hq Hv.
  destruct (quoted_value_facts q v Hq Hv) as (HV & Hquoted & Hstrip).
  destruct (RepositoryEnv_lines_last data lines ws1 ws2 ws3 ws4 k _
              H1 H2 H3 H4 Hk HV) as (before & Hbefore & Hlast).
  exists before. split; [done|]. by rewrite Hquoted, Hstrip in Hlast.
Qed.

Lemma RepositoryEnv_quoted_value_round_trip_witness :
  ∃ before,
    RepositoryEnv_lines ∅ ["KeyOff=off"] = Ok before
    ∧ RepositoryEnv_lines ∅
        (["KeyOff=off"]
         ++ ["" +:+ "RespectSingleQuoteSpace" +:+ " " +:+ "=" +:+ " "
             +:+ (String "'" " text" +:+ String "'" "")
             +:+ String "010" ""])
      = Ok (<["RespectSingleQuoteSpace" := " text"]> before).
Proof.
  apply (RepositoryEnv_quoted_value_round_trip ∅ ["KeyOff=off"]
           "" " " " " (String "010" "") "RespectSingleQuoteSpace" " text" "'");
    try reflexivity.
  - repeat split; done.
  - by left.
Defined.

(** ** From the file to the resolver *)

(** X4.  Parsing and lookup composed.  If the last line of a [.env]
    file that was read sets [k] to a plain trimmed value [v] and
    [os.environ] does not have [k], then [Config.get] over the
    repository built from that file resolves [k] to [v], whatever the
    earlier lines and whatever the default: without a cast it returns
    [v], a callable gets [v] as its argument, and [cast=bool] reads [v]
    off the token tables. *)
Theorem Config_get_reads_env_file
    (host : Host) (environ : gmap string string) (source : string)
    (lines : list string) (ws1 ws2 ws3 ws4 k v : string) :
  forallb_string Str.isspace ws1 = true →
  forallb_string Str.isspace ws2 = true →
  forallb_string Str.isspace ws3 = true →
  forallb_string Str.isspace ws4 = true →
  env_key k → Str.strip v = v → env_quoted v = false →
  open_lines host source
    = Ok (lines ++ [ws1 +:+ k +:+ ws2 +:+ "=" +:+ ws3 +:+ v +:+ ws4]) →
  environ !! k = None →
  ∃ repo,
    RepositoryEnv_init host source = Ok repo
    ∧ ∀ default,
        Config_get environ {| repository := repo |} k default
          _cast_do_nothing = Ok (PyStr v)
        ∧ (∀ f, Config_get environ {| repository := repo |} k default
                  (cast_callable f) = f (PyStr v))
        ∧ boolean_cast_result (PyStr v)
            (Config_get environ {| repository := repo |} k default cast_bool).
Proof.
  intros H1 H2 H3 H4 Hk Hv Hq Hopen Henv.
  destruct (RepositoryEnv_lines_last ∅ lines ws1 ws2 ws3 ws4 k v
              H1 H2 H3 H4 Hk Hv) as (before & _ & Hparse).
  rewrite Hq in Hparse.
  exists (RepositoryEnv (<[k := v]> before)). split.
  - unfold RepositoryEnv_init. rewrite Hopen. simpl. by rewrite Hparse.
  - intros default.
    assert (Hget : ∀ cast,
              Config_get environ
                {| repository := RepositoryEnv (<[k := v]> before) |}
                k default cast = call_cast cast (PyStr v)).
    { intros cast.
      unfold Config_get, Repository_contains, Repository_getitem,
        dict_contains, dict_getitem.
      cbn [repository]. rewrite Henv, lookup_insert_eq.
      rewrite bool_decide_eq_false_2 by (intros [? ?]; discriminate).
      by rewrite bool_decide_eq_true_2 by eauto. }
    split; [by rewrite Hget|]. split; [intros f; by rewrite Hget|].
    rewrite Hget. apply cast_boolean_result.
Qed.

Lemma Config_get_reads_env_file_witness :
  ∃ repo,
    RepositoryEnv_init
      {| isfile := fun _ => true; getcwd := Ok "/";
         open_lines := fun _ =>
           Ok (["KeyOff=on"; ""]
               ++ ["" +:+ "KeyOff" +:+ "" +:+ "=" +:+ "" +:+ "off"
                   +:+ String "010" ""]);
         readfp := fun _ => Raise (ValueError "no parser");
         recursion_limit := 10 |} ".env" = Ok repo
    ∧ ∀ default,
        Config_get ∅ {| repository := repo |} "KeyOff" default
          _cast_do_nothing = Ok (PyStr "off")
        ∧ (∀ f, Config_get ∅ {| repository := repo |} "KeyOff" default
                  (cast_callable f) = f (PyStr "off"))
        ∧ boolean_cast_result (PyStr "off")
            (Config_get ∅ {| repository := repo |} "KeyOff" default cast_bool).
Proof.
  apply (Config_get_reads_env_file _ ∅ ".env" ["KeyOff=on"; ""]
           "" "" "" (String "010" "") "KeyOff" "off"); try reflexivity.
  repeat split; done.
Defined.

(** ** What the search returns *)

Lemma at_neg1 s :
  Str.at_ s (-1) =
    match s with
    | "" => None
    | String d u => String.get (String.length u) s
    end.
Proof.
  unfold Str.at_, Str.len. change (-1 <? 0) with true. cbv iota.
  destruct s as [|d u].
  - reflexivity.
  - simpl String.length.
    replace (-1 + Z.of_nat (S (String.length u)))
      with (Z.of_nat (String.length u)) by lia.
    rewrite Nat2Z.id. destruct (_ && _) eqn:E; [done|].
    apply andb_false_iff in E as [E|E];
      [apply Z.leb_gt in E|apply Z.ltb_ge in E]; lia.
Qed.

Lemma get_length_inv u d c :
  String.get (String.length u) (String d u) = Some c →
  ∃ s', String d u = s' +:+ String c "".
Proof.
  revert d. induction u as [|e u IH]; intros d.
  - simpl. intros [= ->]. by exists "".
  - simpl String.length. intros H.
    destruct (IH e H) as [s' ->]. by exists (String d s').
Qed.

Lemma endswith_inv c s :
  Path.endswith c s = true → ∃ s', s = s' +:+ String c "".
Proof.
  unfold Path.endswith. intros H%bool_decide_eq_true.
  rewrite at_neg1 in H. destruct s as [|d u]; [done|].
  by apply get_length_inv.
Qed.

Lemma substring_all s : String.substring 0 (String.length s) s = s.
Proof. induction s as [|c r IH]; [done|]. simpl. by rewrite IH. Qed.

Lemma slice_from_app s t :
  Path.slice_from (s +:+ t) (Z.of_nat (String.length s)) = t.
Proof.
  unfold Path.slice_from. rewrite Nat2Z.id, length_app_s.
  replace (String.length s + String.length t - String.length s)%nat
    with (String.length t) by lia.
  apply substring_suffix.
Qed.

Lemma basename_after_sep s name :
  Str.contains Path.sep name = false →
  Path.basename (s +:+ String Path.sep name) = name.
Proof.
  intros H. unfold Path.basename. rewrite (rfind_last _ _ _ H).
  replace (s +:+ String Path.sep name)
    with ((s +:+ String Path.sep "") +:+ name)
    by (by rewrite app_assoc_s).
  replace (Z.of_nat (String.length s) + 1)
    with (Z.of_nat (String.length (s +:+ String Path.sep "")))
    by (rewrite length_app_s; simpl; lia).
  apply slice_from_app.
Qed.

(** [basename] undoes [join] for a name without separator. *)
Lemma basename_join path name :
  Str.contains Path.sep name = false →
  Path.basename (Path.join path name) = name.
Proof.
  intros H. unfold Path.join.
  assert (Str.startswith (String Path.sep "") name = false) as ->.
  { destruct name as [|c r]; [done|]. unfold Str.startswith.
    change (String.prefix (String Path.sep "") (String c r))
      with (if ascii_dec Path.sep c then String.prefix "" r else false).
    destruct (ascii_dec Path.sep c) as [<-|]; [|done].
    cbn [Str.contains] in H. by rewrite decide_True in H. }
  destruct path as [|d u].
  - cbn [Str.truthy negb orb]. change ("" +:+ name) with name.
    unfold Path.basename.
    rewrite (rfind_absent _ _ H). unfold Path.slice_from. simpl Z.to_nat.
    rewrite Nat.sub_0_r. apply substring_all.
  - cbn [Str.truthy negb orb].
    destruct (Path.endswith Path.sep (String d u)) eqn:E.
    + destruct (endswith_inv _ _ E) as [s' ->].
      rewrite app_assoc_s. by apply basename_after_sep.
    + by apply basename_after_sep.
Qed.

Lemma find_file_here_supported host path filename :
  _find_file_here host path SUPPORTED = Some filename →
  isfile host filename = true
  ∧ (Path.basename filename = "settings.ini"
     ∨ Path.basename filename = ".env").
Proof.
  cbn [_find_file_here SUPPORTED].
  destruct (isfile host (Path.join path "settings.ini")) eqn:E1.
  { intros [= <-]. split; [done|]. left. by apply basename_join. }
  destruct (isfile host (Path.join path ".env")) eqn:E2; [|done].
  intros [= <-]. split; [done|]. right. by apply basename_join.
Qed.

Lemma find_file_result depth host path filename :
  _find_file depth host path = Ok filename →
  filename = ""
  ∨ (isfile host filename = true
     ∧ (Path.basename filename = "settings.ini"
        ∨ Path.basename filename = ".env")).
Proof.
  revert path. induction depth as [|depth IH]; intros path; [done|].
  cbn [_find_file].
  destruct (_find_file_here host path SUPPORTED) as [f|] eqn:E.
  - intros [= <-]. right. by eapply find_file_here_supported.
  - destruct (Str.truthy (Path.dirname path)); [|intros [= <-]; by left].
    rewrite abspath_root. cbn [mbind result_bind].
    destruct (bool_decide _); [apply IH|intros [= <-]; by left].
Qed.

(** X5.  Whatever the start and however deep the search may go, what
    [_find_file] returns is the empty string or the path of a regular
    file named [settings.ini] or [.env]. *)
Theorem find_file_returns_supported_file
    (depth : nat) (host : Host) (path filename : string) :
  _find_file depth host path = Ok filename →
  filename = ""
  ∨ (isfile host filename = true
     ∧ (Path.basename filename = "settings.ini"
        ∨ Path.basename filename = ".env")).
Proof. apply find_file_result. Qed.

Lemma find_file_returns_supported_file_witness :
  "/a/.env" = ""
  ∨ (isfile {| isfile := fun f => bool_decide (f = "/a/.env");
               getcwd := Ok "/"; open_lines := fun _ => Ok [];
               readfp := fun _ => Raise (ValueError "no parser");
               recursion_limit := 10 |} "/a/.env" = true
     ∧ (Path.basename "/a/.env" = "settings.ini"
        ∨ Path.basename "/a/.env" = ".env")).
Proof.
  apply (find_file_returns_supported_file 10 _ "/a/b/c" "/a/.env").
  reflexivity.
Defined.

(** ** The lazy loader, continued *)

Lemma load_of_filename host self path filename :
  abspath host path ≫= _find_file (recursion_limit host) host = Ok filename →
  _load host self path =
    Repository_new host
      (SUPPORTED_get SUPPORTED (Path.basename filename) RepositoryEmpty_cls)
      filename
    ≫= fun repository =>
         Ok {| search_path := search_path self;
               config := Some {| repository := repository |} |}.
Proof. intros H. unfold _load. by rewrite H. Qed.

Lemma discovery_result host path filename :
  abspath host path ≫= _find_file (recursion_limit host) host = Ok filename →
  filename = ""
  ∨ (isfile host filename = true
     ∧ (Path.basename filename = "settings.ini"
        ∨ Path.basename filename = ".env")).
Proof.
  destruct (abspath host path) as [p|e]; [|done]. apply find_file_result.
Qed.

(** X6.  The repository class follows the name of the file found: for
    a [settings.ini], [_load] builds a [RepositoryIni] from that file,
    for a [.env] a [RepositoryEnv]; no other file is ever handed to
    either. *)
Theorem load_builds_repository_of_found_file
    (host : Host) (self : AutoConfig) (path filename : string) :
  abspath host path ≫= _find_file (recursion_limit host) host = Ok filename →
  filename ≠ "" →
  (Path.basename filename = "settings.ini"
   ∧ _load host self path =
       RepositoryIni_init host filename
       ≫= fun repository =>
            Ok {| search_path := search_path self;
                  config := Some {| repository := repository |} |})
  ∨ (Path.basename filename = ".env"
     ∧ _load host self path =
         RepositoryEnv_init host filename
         ≫= fun repository =>
              Ok {| search_path := search_path self;
                    config := Some {| repository := repository |} |}).
Proof.
  intros Hfound Hne. rewrite (load_of_filename _ _ _ _ Hfound).
  destruct (discovery_result _ _ _ Hfound) as [?|[_ [Hb|Hb]]]; [done| |];
    rewrite Hb; [left|right]; done.
Qed.

Lemma load_builds_repository_of_found_file_witness :
  (Path.basename "/.env" = "settings.ini"
   ∧ _load host_root_env (AutoConfig_init None) "/" =
       RepositoryIni_init host_root_env "/.env"
       ≫= fun repository =>
            Ok {| search_path := search_path (AutoConfig_init None);
                  config := Some {| repository := repository |} |})
  ∨ (Path.basename "/.env" = ".env"
     ∧ _load host_root_env (AutoConfig_init None) "/" =
         RepositoryEnv_init host_root_env "/.env"
         ≫= fun repository =>
              Ok {| search_path := search_path (AutoConfig_init None);
                    config := Some {| repository := repository |} |}).
Proof.
  apply (load_builds_repository_of_found_file host_root_env
           (AutoConfig_init None) "/" "/.env").
  - reflexivity.
  - done.
Defined.

(** X7.  An error raised when the file that was found is opened is
    not swallowed: the first call of the [AutoConfig] raises it, and
    the instance stays without a [Config], so that the next call
    searches again. *)
Theorem AutoConfig_call_propagates_open_error
    (host : Host) (environ : gmap string string) (self : AutoConfig)
    (caller_path option filename : string) (default : default_arg)
    (cast : cast_arg) (e : exn) :
  config self = None →
  abspath host
    (match search_path self with
     | Some p => if Str.truthy p then p else caller_path
     | None => caller_path
     end)
    ≫= _find_file (recursion_limit host) host = Ok filename →
  filename ≠ "" →
  open_lines host filename = Raise e →
  AutoConfig_call host environ self caller_path option default cast
  = (self, Raise e).
Proof.
  intros Hcfg Hfound Hne Hopen. unfold AutoConfig_call. rewrite Hcfg.
  rewrite (load_of_filename _ _ _ _ Hfound).
  destruct (discovery_result _ _ _ Hfound) as [?|[_ [Hb|Hb]]]; [done| |];
    rewrite Hb; simpl.
  - unfold RepositoryIni_init. by rewrite Hopen.
  - unfold RepositoryEnv_init. by rewrite Hopen.
Qed.

Lemma AutoConfig_call_propagates_open_error_witness :
  AutoConfig_call
    {| isfile := fun f => bool_decide (f = "/srv/.env");
       getcwd := Ok "/";
       open_lines := fun f => Raise (OSError 13 f);
       readfp := fun _ => Raise (ValueError "no parser");
       recursion_limit := 10 |}
    ∅ (AutoConfig_init None) "/srv/app" "DEBUG" undefined _cast_do_nothing
  = (AutoConfig_init None, Raise (OSError 13 "/srv/.env")).
Proof.
  apply (AutoConfig_call_propagates_open_error _ ∅ (AutoConfig_init None)
           "/srv/app" "DEBUG" "/srv/.env" undefined _cast_do_nothing
           (OSError 13 "/srv/.env")).
  - reflexivity.
  - reflexivity.
  - done.
  - reflexivity.
Defined.

(** X8.  A call of an [AutoConfig] either raises out of [_load] and
    leaves the instance as it was, or leaves it with a [Config] that
    every later call uses as it is: the host (file system, working
    directory) and the caller's path no longer matter, and the instance
    does not change again. *)
Theorem AutoConfig_call_caches_config
    (host : Host) (environ : gmap string string) (self self' : AutoConfig)
    (caller_path option : string) (default : default_arg) (cast : cast_arg)
    (r : result pyval) :
  AutoConfig_call host environ self caller_path option default cast
  = (self', r) →
  (config self' = None ∧ self' = self ∧ ∃ e, r = Raise e)
  ∨ ∃ cfg,
      config self' = Some cfg
      ∧ search_path self' = search_path self
      ∧ r = Config_get environ cfg option default cast
      ∧ ∀ host' environ' caller_path' option' default' cast',
          AutoConfig_call host' environ' self' caller_path' option'
            default' cast'
          = (self', Config_get environ' cfg option' default' cast').
Proof.
  unfold AutoConfig_call at 1.
  destruct (config self) as [cfg|] eqn:Hcfg.
  - intros [= <- <-]. right. exists cfg. repeat split; [done|].
    intros. unfold AutoConfig_call. by rewrite Hcfg.
  - destruct (_load host self _) as [loaded|e] eqn:Hload.
    + revert Hload. unfold _load.
      destruct (Repository_new _ _ _) as [repo|e]; [|done].
      intros [= <-]. cbn [config]. intros [= <- <-]. right.
      exists {| repository := repo |}. repeat split.
    + intros [= <- <-]. left. eauto.
Qed.

Lemma AutoConfig_call_caches_config_witness :
  (config {| search_path := Some "/a";
             config := Some {| repository := RepositoryEnv ∅ |} |} = None
   ∧ {| search_path := Some "/a";
        config := Some {| repository := RepositoryEnv ∅ |} |}
     = AutoConfig_init (Some "/a")
   ∧ ∃ e, Ok (PyStr "x") = Raise e)
  ∨ ∃ cfg,
      config {| search_path := Some "/a";
                config := Some {| repository := RepositoryEnv ∅ |} |}
      = Some cfg
      ∧ search_path {| search_path := Some "/a";
                       config := Some {| repository := RepositoryEnv ∅ |} |}
        = search_path (AutoConfig_init (Some "/a"))
      ∧ Ok (PyStr "x") = Config_get ∅ cfg "K" (Default (PyStr "x")) _cast_do_nothing
      ∧ ∀ host' environ' caller_path' option' default' cast',
          AutoConfig_call host' environ'
            {| search_path := Some "/a";
               config := Some {| repository := RepositoryEnv ∅ |} |}
            caller_path' option' default' cast'
          = ({| search_path := Some "/a";
                config := Some {| repository := RepositoryEnv ∅ |} |},
             Config_get environ' cfg option' default' cast').
Proof.
  apply (AutoConfig_call_caches_config
           {| isfile := fun f => bool_decide (f = "/a/.env");
              getcwd := Ok "/"; open_lines := fun _ => Ok [];
              readfp := fun _ => Raise (ValueError "no parser");
              recursion_limit := 10 |}
           ∅ (AutoConfig_init (Some "/a")) _ "/srv/app" "K"
           (Default (PyStr "x")) _cast_do_nothing).
  reflexivity.
Defined.

(** ** [Choices] *)



(** ** The tokenizer of [Csv] *)

Section csv_tokens.

Context (d wc : string).

Local Open Scope nat_scope.

Lemma csv_plain_char_inv c :
  csv_plain_char d c = true →
  Str.contains c d = false ∧ Str.contains c env_quotes = false
  ∧ Str.contains c (String "\" "") = false ∧ Str.contains c "#" = false.
Proof.
  unfold csv_plain_char. rewrite !andb_true_iff, !negb_true_iff. tauto.
Qed.

Lemma round_start c rest q e :
  csv_plain_char d c = true →
  Shlex.read_token_round (csv_lexer d wc (String c rest) (Some " "%char) "") q e
  = Shlex.Continue (csv_lexer d wc rest (Some "a"%char) (String c "")) q e.
Proof.
  intros (H1 & H2 & H3 & H4)%csv_plain_char_inv.
  unfold Shlex.read_token_round, csv_lexer, Shlex.read1.
  cbn [Shlex.instream Shlex.posix Shlex.commenters Shlex.wordchars
       Shlex.whitespace Shlex.whitespace_split Shlex.quotes Shlex.escape
       Shlex.escapedquotes Shlex.state Shlex.pushback Shlex.token
       Shlex.punctuation_chars Shlex._pushback_chars Shlex.set_instream
       Shlex.set_state Shlex.set_token Str.truthy].
  rewrite decide_True by done. fold env_quotes.
  rewrite H1, H2, H3, H4. cbn [andb].
  by destruct (Str.contains c wc).
Qed.

Lemma round_word c rest t q e :
  csv_plain_char d c = true →
  Shlex.read_token_round (csv_lexer d wc (String c rest) (Some "a"%char) t) q e
  = Shlex.Continue (csv_lexer d wc rest (Some "a"%char) (t +:+ String c "")) q e.
Proof.
  intros (H1 & H2 & H3 & H4)%csv_plain_char_inv.
  unfold Shlex.read_token_round, csv_lexer, Shlex.read1, Shlex.add.
  cbn [Shlex.instream Shlex.posix Shlex.commenters Shlex.wordchars
       Shlex.whitespace Shlex.whitespace_split Shlex.quotes Shlex.escape
       Shlex.escapedquotes Shlex.state Shlex.pushback Shlex.token
       Shlex.punctuation_chars Shlex._pushback_chars Shlex.set_instream
       Shlex.set_state Shlex.set_token Str.truthy].
  rewrite decide_False by done. fold env_quotes.
  change (Str.contains "a" env_quotes) with false.
  change (Str.contains "a" (String "\" "")) with false.
  cbv iota.
  rewrite bool_decide_eq_true_2 by (apply elem_of_cons; by left).
  rewrite H1, H2, H3, H4. cbn [andb].
  destruct (decide ("a"%char = "c"%char)) as [?|_]; [done|].
  by rewrite !orb_true_r.
Qed.

Lemma round_delimiter c rest t q e :
  Str.contains c d = true → t ≠ "" →
  Shlex.read_token_round (csv_lexer d wc (String c rest) (Some "a"%char) t) q e
  = Shlex.Break (csv_lexer d wc rest (Some " "%char) t) q.
Proof.
  intros H1 Ht.
  unfold Shlex.read_token_round, csv_lexer, Shlex.read1, Shlex.emit_or_continue.
  cbn [Shlex.instream Shlex.posix Shlex.commenters Shlex.wordchars
       Shlex.whitespace Shlex.whitespace_split Shlex.quotes Shlex.escape
       Shlex.escapedquotes Shlex.state Shlex.pushback Shlex.token
       Shlex.punctuation_chars Shlex._pushback_chars Shlex.set_instream
       Shlex.set_state Shlex.set_token Str.truthy].
  rewrite decide_False by done. fold env_quotes.
  change (Str.contains "a" env_quotes) with false.
  change (Str.contains "a" (String "\" "")) with false.
  cbv iota.
  rewrite bool_decide_eq_true_2 by (apply elem_of_cons; by left).
  rewrite H1. by destruct t.
Qed.

Lemma round_end (st : ascii) t q e :
  st = " "%char ∨ st = "a"%char →
  Shlex.read_token_round (csv_lexer d wc "" (Some st) t) q e
  = Shlex.Break (csv_lexer d wc "" None t) q.
Proof. by intros [-> | ->]. Qed.

Lemma round_past_end q e :
  Shlex.read_token_round (csv_lexer d wc "" None "") q e
  = Shlex.Break (csv_lexer d wc "" None "") q.
Proof. reflexivity. Qed.

(** A run of plain characters goes into the token, up to the end of
    the input or to a delimiter. *)
Lemma loop_word w : ∀ fuel t q e,
  forallb_string (csv_plain_char d) w = true →
  String.length w < fuel →
  Shlex.read_token_loop fuel (csv_lexer d wc w (Some "a"%char) t) q e
  = Some (Ok (csv_lexer d wc "" None (t +:+ w), q))
  ∧ ∀ c rest, Str.contains c d = true → t +:+ w ≠ "" →
      Shlex.read_token_loop fuel
        (csv_lexer d wc (w +:+ String c rest) (Some "a"%char) t) q e
      = Some (Ok (csv_lexer d wc rest (Some " "%char) (t +:+ w), q)).
Proof.
  induction w as [|ch w IH]; intros fuel t q e Hw Hfuel.
  - destruct fuel as [|fuel]; [simpl in Hfuel; lia|]. rewrite app_empty_r.
    split.
    + cbn [Shlex.read_token_loop]. rewrite round_end by (by right). done.
    + intros c rest Hc Ht. change ("" +:+ String c rest) with (String c rest).
      cbn [Shlex.read_token_loop]. by rewrite round_delimiter.
  - destruct fuel as [|fuel]; [simpl in Hfuel; lia|].
    cbn [forallb_string] in Hw. apply andb_true_iff in Hw as [Hch Hw].
    simpl in Hfuel.
    destruct (IH fuel (t +:+ String ch "") q e Hw ltac:(lia)) as [IH1 IH2].
    assert (Happ : (t +:+ String ch "") +:+ w = t +:+ String ch w)
      by (by rewrite app_assoc_s).
    rewrite Happ in IH1, IH2. split.
    + cbn [Shlex.read_token_loop]. by rewrite round_word.
    + intros c rest Hc Ht. rewrite app_String.
      cbn [Shlex.read_token_loop]. rewrite round_word by done. by apply IH2.
Qed.

End csv_tokens.

Section csv_words.

Context (d wc : string).

Local Open Scope nat_scope.

Lemma read_token_word ch w fuel :
  forallb_string (csv_plain_char d) (String ch w) = true →
  String.length (String ch w) < fuel →
  Shlex.read_token fuel (csv_lexer d wc (String ch w) (Some " "%char) "")
  = Some (Ok (Some (String ch w), csv_lexer d wc "" None ""))
  ∧ ∀ c rest, Str.contains c d = true →
      Shlex.read_token fuel
        (csv_lexer d wc (String ch w +:+ String c rest) (Some " "%char) "")
      = Some (Ok (Some (String ch w), csv_lexer d wc rest (Some " "%char) "")).
Proof.
  cbn [forallb_string]. intros [Hch Hw]%andb_true_iff Hfuel.
  destruct fuel as [|fuel]; [lia|]. simpl in Hfuel.
  destruct (loop_word d wc w fuel (String ch "") false " "%char Hw ltac:(lia))
    as [H1 H2].
  unfold Shlex.read_token. split.
  - cbn [Shlex.read_token_loop]. rewrite round_start by done. by rewrite H1.
  - intros c rest Hc. rewrite app_String.
    cbn [Shlex.read_token_loop]. rewrite round_start by done.
    by rewrite (H2 c rest Hc).
Qed.

Lemma read_token_end fuel st :
  st = Some " "%char ∨ st = None →
  Shlex.read_token (S fuel) (csv_lexer d wc "" st "")
  = Some (Ok (None, csv_lexer d wc "" None "")).
Proof. by intros [-> | ->]. Qed.

Lemma join_cons2 c w w2 ws :
  Str.join (String c "") (w :: w2 :: ws)
  = w +:+ String c (Str.join (String c "") (w2 :: ws)).
Proof. reflexivity. Qed.

Lemma tokens_words c words : ∀ n fuel,
  Str.contains c d = true →
  Forall (fun w => csv_plain_word d w ∧ String.length w < fuel) words →
  length words < n →
  0 < fuel →
  Shlex.tokens n fuel
    (csv_lexer d wc (Str.join (String c "") words) (Some " "%char) "")
  = Some (gen_of_results (Ok <$> words)).
Proof.
  intros n fuel Hc. revert n.
  induction words as [|w ws IH]; intros n Hws Hn Hfuel.
  - destruct n as [|n]; [simpl in Hn; lia|]. destruct fuel as [|fuel]; [lia|].
    cbn [Shlex.tokens Shlex.get_token Str.join csv_lexer Shlex.pushback].
    fold (csv_lexer d wc "" (Some " "%char) "").
    rewrite read_token_end by (by left). reflexivity.
  - apply Forall_cons in Hws as [[[Hne Hw] Hlen] Hws].
    destruct n as [|n]; [simpl in Hn; lia|]. simpl in Hn.
    destruct w as [|ch w]; [done|].
    destruct (read_token_word ch w fuel Hw Hlen) as [H1 H2].
    destruct ws as [|w2 ws].
    + destruct n as [|n]; [lia|]. destruct fuel as [|fuel]; [lia|].
      cbn [Shlex.tokens Str.join].
      unfold Shlex.get_token at 1. cbn [csv_lexer Shlex.pushback].
      fold (csv_lexer d wc (String ch w) (Some " "%char) "").
      rewrite H1. cbn [Shlex.eof csv_lexer Shlex.posix].
      rewrite bool_decide_eq_false_2 by done.
      unfold Shlex.get_token. cbn [Shlex.pushback].
      fold (csv_lexer d wc "" None "").
      rewrite read_token_end by (by right). reflexivity.
    + rewrite join_cons2. cbn [Shlex.tokens].
      unfold Shlex.get_token at 1. cbn [csv_lexer Shlex.pushback].
      fold (csv_lexer d wc
              (String ch w +:+ String c (Str.join (String c "") (w2 :: ws)))
              (Some " "%char) "").
      rewrite (H2 c _ Hc). cbn [Shlex.eof csv_lexer Shlex.posix].
      rewrite bool_decide_eq_false_2 by done.
      fold (csv_lexer d wc (Str.join (String c "") (w2 :: ws))
              (Some " "%char) "").
      rewrite (IH n Hws ltac:(simpl in *; lia) Hfuel). reflexivity.
Qed.

Lemma join_length sep words :
  Forall (fun w => w ≠ "") words →
  length words ≤ String.length (Str.join sep words)
  ∧ Forall (fun w => String.length w ≤ String.length (Str.join sep words)) words.
Proof.
  induction words as [|w ws IH]; intros Hws; [by split|].
  apply Forall_cons in Hws as [Hw Hws]. destruct (IH Hws) as [IH1 IH2].
  assert (0 < String.length w) by (destruct w; [done|simpl; lia]).
  destruct ws as [|w2 ws].
  - simpl. split; [lia|]. by repeat constructor.
  - change (Str.join sep (w :: w2 :: ws))
      with (w +:+ sep +:+ Str.join sep (w2 :: ws)).
    rewrite !length_app_s. split.
    + simpl length in *. lia.
    + constructor; [lia|]. eapply Forall_impl; [exact IH2|].
      intros x Hx. cbv beta in Hx. lia.
Qed.

End csv_words.

Lemma Csv_generator_words {A B} (self : Csv A B) (words : list string) :
  Csv_generator self (gen_of_results (Ok <$> words))
  = gen_of_results
      ((fun w => cast self (Str.strip_chars (strip self) w)) <$> words).
Proof.
  induction words as [|w ws IH]; [done|]. cbn [fmap list_fmap gen_of_results Csv_generator].
  destruct (cast self _); [|done]. f_equal. exact IH.
Qed.

(** X11.  On a value made of non-empty words of plain characters (no
    delimiter, no quote, no backslash, no [#]) with one delimiter
    character between them, [Csv] is "split, strip, cast": what
    [post_process] receives is the iterator that goes through the
    words in order, yields for each the cast of the word stripped of
    the [strip] characters, and raises where the cast does. *)
Theorem Csv_call_plain_words {A B : Type}
    (self : Csv A B) (words : list string) (c : ascii) :
  Str.contains c (delimiter self) = true →
  Forall (csv_plain_word (delimiter self)) words →
  Csv_call self (Str.join (String c "") words)
  = Some (post_process self
            (gen_of_results
               ((fun w => cast self (Str.strip_chars (strip self) w))
                  <$> words))).
Proof.
  intros Hc Hwords. unfold Csv_call.
  set (value := Str.join (String c "") words).
  assert (Hlex :
    Shlex.set_whitespace_split
      (Shlex.set_whitespace (Shlex.init value true) (delimiter self)) true
    = csv_lexer (delimiter self) (Shlex.wordchars (Shlex.init value true))
        value (Some " "%char) "") by reflexivity.
  rewrite Hlex. subst value.
  destruct (join_length (String c "") words) as [Hlen Hall].
  { eapply Forall_impl; [exact Hwords|]. by intros w [? _]. }
  rewrite (tokens_words (delimiter self) _ c words);
    [by rewrite Csv_generator_words|done| |lia|lia].
  apply Forall_forall. intros w Hw. split.
  - by eapply Forall_forall in Hwords.
  - eapply Forall_forall in Hall; [|exact Hw]. simpl in Hall. lia.
Qed.

Lemma Csv_call_plain_words_witness :
  Csv_call Csv_default (Str.join (String "," "") ["a"; " b "; "c d"])
  = Some (post_process Csv_default
            (gen_of_results
               ((fun w => cast Csv_default
                            (Str.strip_chars (strip Csv_default) w))
                  <$> ["a"; " b "; "c d"]))).
Proof.
  apply (Csv_call_plain_words Csv_default ["a"; " b "; "c d"] ",").
  - reflexivity.
  - repeat constructor; done.
Defined.

(** The same on concrete instances: the default [Csv] strips and
    keeps the order; a cast that raises on the second word stops a
    [post_process] that reads everything, and not one that reads the
    first element only. *)
Example Csv_call_plain_words_examples :
  Csv_call Csv_default "a, b ,c d" = Some (Ok ["a"; "b"; "c d"])
  ∧ Csv_call
      {| cast := fun s => if bool_decide (s = "b")
                          then Raise (ValueError "b") else Ok s;
         delimiter := ","; strip := string_whitespace;
         post_process := py_list |} "a, b ,c"
    = Some (Raise (ValueError "b"))
  ∧ Csv_call
      {| cast := fun s => if bool_decide (s = "b")
                          then Raise (ValueError "b") else Ok s;
         delimiter := ","; strip := string_whitespace;
         post_process := fun g =>
           match g with
           | gen_yield a _ => Ok (Some a)
           | gen_stop => Ok None
           | gen_raise e => Raise e
           end |} "a, b ,c"
    = Some (Ok (Some "a")).
Proof. repeat split; vm_compute; reflexivity. Qed.

(** ** An unterminated quote *)

Section csv_quote.

Context (d wc : string).

Local Open Scope nat_scope.

Lemma round_open_quote qc rest q e :
  qc = Str.squote ∨ qc = Str.dquote →
  Str.contains qc d = false → Str.contains qc wc = false →
  Shlex.read_token_round (csv_lexer d wc (String qc rest) (Some " "%char) "") q e
  = Shlex.Continue (csv_lexer d wc rest (Some qc) "") q e.
Proof.
  intros Hq H1 H2.
  unfold Shlex.read_token_round, csv_lexer, Shlex.read1.
  cbn [Shlex.instream Shlex.posix Shlex.commenters Shlex.wordchars
       Shlex.whitespace Shlex.whitespace_split Shlex.quotes Shlex.escape
       Shlex.escapedquotes Shlex.state Shlex.pushback Shlex.token
       Shlex.punctuation_chars Shlex._pushback_chars Shlex.set_instream
       Shlex.set_state Shlex.set_token Str.truthy].
  rewrite decide_True by done. rewrite H1, H2.
  by destruct Hq as [-> | ->].
Qed.

Lemma round_in_quote qc c rest t q e :
  qc = Str.squote ∨ qc = Str.dquote →
  c ≠ qc → (qc = Str.dquote → c ≠ "\"%char) →
  Shlex.read_token_round (csv_lexer d wc (String c rest) (Some qc) t) q e
  = Shlex.Continue (csv_lexer d wc rest (Some qc) (t +:+ String c "")) true e.
Proof.
  intros Hq Hc Hesc.
  unfold Shlex.read_token_round, csv_lexer, Shlex.read1, Shlex.add.
  cbn [Shlex.instream Shlex.posix Shlex.commenters Shlex.wordchars
       Shlex.whitespace Shlex.whitespace_split Shlex.quotes Shlex.escape
       Shlex.escapedquotes Shlex.state Shlex.pushback Shlex.token
       Shlex.punctuation_chars Shlex._pushback_chars Shlex.set_instream
       Shlex.set_state Shlex.set_token Str.truthy].
  destruct Hq as [-> | ->].
  - rewrite decide_False by done.
    change (Str.contains Str.squote (String Str.squote (String Str.dquote "")))
      with true.
    change (Str.contains Str.squote (String Str.dquote "")) with false.
    cbv iota. rewrite decide_False by done. by rewrite andb_false_r.
  - rewrite decide_False by done.
    change (Str.contains Str.dquote (String Str.squote (String Str.dquote "")))
      with true.
    cbv iota. rewrite decide_False by done.
    assert (Str.contains c (String "\" "") = false) as ->; [|done].
    cbn [Str.contains]. rewrite decide_False; [done|]. by apply Hesc.
Qed.

Lemma round_quote_end qc t q e :
  qc = Str.squote ∨ qc = Str.dquote →
  Shlex.read_token_round (csv_lexer d wc "" (Some qc) t) q e
  = Shlex.Throw (ValueError "No closing quotation").
Proof. by intros [-> | ->]. Qed.

Lemma loop_in_quote qc w : ∀ fuel t q e,
  qc = Str.squote ∨ qc = Str.dquote →
  Str.contains qc w = false →
  (qc = Str.dquote → Str.contains "\" w = false) →
  String.length w < fuel →
  Shlex.read_token_loop fuel (csv_lexer d wc w (Some qc) t) q e
  = Some (Raise (ValueError "No closing quotation")).
Proof.
  induction w as [|c w IH]; intros fuel t q e Hq Hw Hesc Hfuel.
  - destruct fuel as [|fuel]; [simpl in Hfuel; lia|].
    cbn [Shlex.read_token_loop]. by rewrite round_quote_end.
  - destruct fuel as [|fuel]; [simpl in Hfuel; lia|]. simpl in Hfuel.
    cbn [Str.contains] in Hw.
    destruct (decide (qc = c)) as [|Hne]; [done|].
    cbn [Shlex.read_token_loop]. rewrite round_in_quote; [|done|congruence|].
    + apply IH; [done|done| |lia].
      intros Hd. specialize (Hesc Hd). cbn [Str.contains] in Hesc.
      by destruct (decide ("\"%char = c)).
    + intros Hd. specialize (Hesc Hd). cbn [Str.contains] in Hesc.
      destruct (decide ("\"%char = c)); [done|]. congruence.
Qed.

End csv_quote.

(** X12.  A value that opens a quote and never closes it (for a double
    quote: without a backslash in what follows) gives [post_process] an
    iterator that raises [ValueError] at its first [next], as long as
    the quote character is not itself a delimiter; so [Csv] raises
    whenever [post_process] asks for an element, as [list] does. *)
Theorem Csv_call_unterminated_quote {A B : Type}
    (self : Csv A B) (qc : ascii) (w : string) :
  qc = Str.squote ∨ qc = Str.dquote →
  Str.contains qc (delimiter self) = false →
  Str.contains qc w = false →
  (qc = Str.dquote → Str.contains "\" w = false) →
  Csv_call self (String qc w)
  = Some (post_process self (gen_raise (ValueError "No closing quotation"))).
Proof.
  intros Hq Hd Hw Hesc. unfold Csv_call.
  set (value := String qc w).
  assert (Hlex :
    Shlex.set_whitespace_split
      (Shlex.set_whitespace (Shlex.init value true) (delimiter self)) true
    = csv_lexer (delimiter self) (Shlex.wordchars (Shlex.init value true))
        value (Some " "%char) "") by reflexivity.
  rewrite Hlex. subst value.
  cbn [Shlex.tokens]. unfold Shlex.get_token. cbn [csv_lexer Shlex.pushback].
  fold (csv_lexer (delimiter self)
          (Shlex.wordchars (Shlex.init (String qc w) true))
          (String qc w) (Some " "%char) "").
  unfold Shlex.read_token. cbn [Shlex.read_token_loop].
  rewrite round_open_quote; [|done|done|by destruct Hq as [-> | ->]].
  rewrite loop_in_quote; [done|done|done|done|].
  simpl. lia.
Qed.

Lemma Csv_call_unterminated_quote_witness :
  Csv_call Csv_default (String "'" "b,c,d")
  = Some (post_process Csv_default
            (gen_raise (ValueError "No closing quotation"))).
Proof.
  apply (Csv_call_unterminated_quote Csv_default "'" "b,c,d").
  - by left.
  - reflexivity.
  - reflexivity.
  - done.
Defined.

(** With the default [post_process=list] the call raises; a
    [post_process] that never asks for an element does not. *)
Example Csv_call_unterminated_quote_examples :
  Csv_call Csv_default (String "'" "b,c,d")
  = Some (Raise (ValueError "No closing quotation"))
  ∧ Csv_call
      {| cast := fun s => Ok s; delimiter := ","; strip := string_whitespace;
         post_process := fun _ : generator string => Ok PyNone |}
      (String "'" "b,c,d")
    = Some (Ok PyNone).
Proof. split; vm_compute; reflexivity. Qed.

(** ** Defaults that are not strings, under [cast=bool] *)








(** The message for the default 2, written out. *)
Example Config_get_cast_bool_of_default_two :
  Config_get ∅ {| repository := RepositoryEmpty |} "DEBUG"
    (Default (PyInt 2)) cast_bool
  = Raise (ValueError "invalid truth value '2'").
Proof. reflexivity. Qed.

(** ** Lines that define nothing *)

Lemma RepositoryEnv_line_ignored data line :
  forallb_string Str.isspace line = true
  ∨ (∃ ws rest, forallb_string Str.isspace ws = true
                ∧ line = ws +:+ String "#" rest)
  ∨ Str.contains "=" line = false →
  RepositoryEnv_line data line = Ok data.
Proof.
  unfold RepositoryEnv_line. intros [Hblank|[(ws & rest & Hws & ->)|Hnoeq]].
  - assert (Str.strip line = "") as ->; [|done].
    unfold Str.strip, Str.strip_by.
    rewrite <- (app_empty_r line), (lstrip_by_all _ _ _ Hblank). done.
  - assert (∃ r', Str.strip (ws +:+ String "#" rest) = String "#" r')
      as [r' ->].
    { unfold Str.strip, Str.strip_by. rewrite (lstrip_by_all _ _ _ Hws).
      simpl Str.lstrip_by. by apply rstrip_by_head. }
    by rewrite startswith_hash, bool_decide_eq_true_2, orb_true_r.
  - unfold Str.strip. rewrite (strip_by_not_contains _ _ _ Hnoeq).
    by rewrite !orb_true_r.
Qed.

(** X14.  A blank line, a comment line (the first character that is
    not white space is [#]) and a line without [=] define nothing:
    wherever such a line stands in the file, the mapping read is the
    one read without it. *)
Theorem RepositoryEnv_lines_ignore_line
    (data : gmap string string) (before after : list string) (line : string) :
  forallb_string Str.isspace line = true
  ∨ (∃ ws rest, forallb_string Str.isspace ws = true
                ∧ line = ws +:+ String "#" rest)
  ∨ Str.contains "=" line = false →
  RepositoryEnv_lines data (before ++ line :: after)
  = RepositoryEnv_lines data (before ++ after).
Proof.
  intros Hline. rewrite !RepositoryEnv_lines_app.
  destruct (RepositoryEnv_lines data before) as [d|e]; [|done]. simpl.
  by rewrite (RepositoryEnv_line_ignored d line Hline).
Qed.

Lemma RepositoryEnv_lines_ignore_line_witness :
  RepositoryEnv_lines ∅ (["KeyOff=off"] ++ " #CommentedKey=None" :: ["KeyOn=on"])
  = RepositoryEnv_lines ∅ (["KeyOff=off"] ++ ["KeyOn=on"]).
Proof.
  apply (RepositoryEnv_lines_ignore_line ∅ ["KeyOff=off"] ["KeyOn=on"]
           " #CommentedKey=None").
  right. left. exists " ", "CommentedKey=None". split; reflexivity.
Defined.

(** ** Priority and the nearest file *)

(** X15.  A [settings.ini] in the start directory wins: [AutoConfig]
    builds a [RepositoryIni] from it, whether or not there is a [.env]
    beside it or any supported file further up. *)
Theorem load_prefers_settings_ini
    (host : Host) (self : AutoConfig) (path start : string) :
  abspath host path = Ok start →
  isfile host (Path.join start "settings.ini") = true →
  (0 < recursion_limit host)%nat →
  _load host self path =
    RepositoryIni_init host (Path.join start "settings.ini")
    ≫= fun repository =>
         Ok {| search_path := search_path self;
               config := Some {| repository := repository |} |}.
Proof.
  intros Habs Hini Hlimit. unfold _load. rewrite Habs.
  destruct (recursion_limit host) as [|depth]; [lia|].
  cbn [mbind result_bind _find_file _find_file_here SUPPORTED].
  rewrite Hini. by rewrite basename_join.
Qed.

Lemma load_prefers_settings_ini_witness :
  _load {| isfile := fun f => bool_decide (f ∈ ["/a/settings.ini"; "/a/.env"]);
           getcwd := Ok "/"; open_lines := fun _ => Ok [];
           readfp := fun _ =>
             Ok {| _sections := ∅; _defaults := ∅;
                   _interpolation := fun _ _ value _ => Ok value |};
           recursion_limit := 10 |}
    (AutoConfig_init None) "/a"
  = RepositoryIni_init
      {| isfile := fun f => bool_decide (f ∈ ["/a/settings.ini"; "/a/.env"]);
         getcwd := Ok "/"; open_lines := fun _ => Ok [];
         readfp := fun _ =>
           Ok {| _sections := ∅; _defaults := ∅;
                 _interpolation := fun _ _ value _ => Ok value |};
         recursion_limit := 10 |}
      (Path.join "/a" "settings.ini")
    ≫= fun repository =>
         Ok {| search_path := search_path (AutoConfig_init None);
               config := Some {| repository := repository |} |}.
Proof.
  apply (load_prefers_settings_ini _ (AutoConfig_init None) "/a" "/a").
  - reflexivity.
  - reflexivity.
  - simpl. lia.
Defined.

Lemma examined_head cs : cs ≠ [] → ∃ rest, examined cs = abs_path cs :: rest.
Proof.
  intros Hne. destruct cs as [|x cs' _] using rev_ind; [done|].
  rewrite examined_snoc.
  assert (abs_path (cs' ++ [x]) = under (cs' ++ [x])) as -> by (by destruct cs').
  eauto.
Qed.

(** X16.  The search goes up: when the start directory has no
    supported file and its parent, which is not the root, has a [.env]
    and no [settings.ini], [_find_file] returns the [.env] of the
    parent. *)
Theorem find_file_in_parent
    (host : Host) (cs : list string) (c : string) (depth : nat) :
  Forall component cs → component c → cs ≠ [] →
  (S (length cs) < depth)%nat →
  has_supported host (abs_path (cs ++ [c])) = false →
  isfile host (Path.join (abs_path cs) "settings.ini") = false →
  isfile host (Path.join (abs_path cs) ".env") = true →
  _find_file depth host (abs_path (cs ++ [c]))
  = Ok (Path.join (abs_path cs) ".env").
Proof.
  intros Hcs Hc Hne Hdepth Hstart Hini Henv.
  rewrite find_file_examined.
  - rewrite examined_snoc. cbn [first_found].
    assert (abs_path (cs ++ [c]) = under (cs ++ [c])) as E by (by destruct cs).
    rewrite E in Hstart. apply find_file_here_None in Hstart. rewrite Hstart.
    destruct (examined_head cs Hne) as [rest Hex].
    destruct cs as [|c1 cs1]; [done|]. rewrite Hex.
    cbn [first_found _find_file_here SUPPORTED]. by rewrite Hini, Henv.
  - apply Forall_app. split; [done|]. by constructor.
  - rewrite length_app. simpl. lia.
Qed.

Lemma find_file_in_parent_witness :
  _find_file 5
    {| isfile := fun f => bool_decide (f = "/srv/.env");
       getcwd := Ok "/"; open_lines := fun _ => Ok [];
       readfp := fun _ => Raise (ValueError "no parser");
       recursion_limit := 5 |}
    (abs_path (["srv"] ++ ["app"]))
  = Ok (Path.join (abs_path ["srv"]) ".env").
Proof.
  apply (find_file_in_parent _ ["srv"] "app" 5).
  - repeat constructor; done.
  - split; done.
  - done.
  - simpl. lia.
  - reflexivity.
  - reflexivity.
  - reflexivity.
Defined.
